(** * XMODEM-1k sender: frame construction, chunk planning and upload session

    A shallow embedding of [scripts/support/xmodem1k_sender.py]:
    the class [TransferDataCreator] (CRC-16, padding, frame construction,
    chunk planning), the class [FirmwareUploader] (the send-side session over
    a serial port) and [main].

    Python integers are modelled as [Z] with the masks of the source written
    out, [bytes] objects as [list byte], raised exceptions as the [Raise]
    branch of [result], and the serial port as an abstract device threaded
    through a small state-and-trace monad. *)

From Stdlib Require Import String ZArith Bool Lia PeanoNat List.
From Stdlib Require Import Strings.Byte.
From Stdlib Require Import Ascii DecimalString.
Import ListNotations.

Local Open Scope Z_scope.

(** ** Bytes and exceptions *)

Definition bytes := list byte.

Inductive exception : Type :=
| OSError (msg : string)
| AssertionError
| OverflowError
| StructError
| SerialException.

Inductive result (A : Type) : Type :=
| Ok (a : A)
| Raise (e : exception).

Arguments Ok {A} a.
Arguments Raise {A} e.

Definition rbind {A B : Type} (r : result A) (k : A -> result B) : result B :=
  match r with
  | Ok a => k a
  | Raise e => Raise e
  end.

Declare Scope result_scope.
Delimit Scope result_scope with result.
Notation "'let?' x ':=' r 'in' k" := (rbind r (fun x => k))
  (at level 10, x name, r at level 100, k at level 200) : result_scope.

(** The value of a byte, as iterating over a [bytes] object yields it. *)
Definition byte_val (b : byte) : Z := Z.of_N (Byte.to_N b).

(** [int.to_bytes()] with its defaults (length 1, big endian): the one byte
    of value [n]; [OverflowError] outside [0, 255]. *)
Definition to_bytes (n : Z) : result bytes :=
  if (0 <=? n) && (n <=? 255) then
    match Byte.of_N (Z.to_N n) with
    | Some b => Ok [b]
    | None => Raise OverflowError
    end
  else Raise OverflowError.

(** XMODEM1k bytes (module constants of the source). *)
Definition SOH : bytes := [x01].
Definition STX : bytes := [x02].
Definition EOT : bytes := [x04].
Definition ACK : bytes := [x06].
Definition NAK : bytes := [x15].
Definition CAN : bytes := [x18].
Definition PING : bytes := [x43].

(** Header bits. *)
Definition NO_VERIFICATION : Z := Z.shiftl 1 0.

(** ** class TransferDataCreator *)

Record TransferDataCreator : Type := mkTransferDataCreator {
  _polynomial : Z;
  _data : bytes;
  _header : option bytes
}.

(** [__init__(self, data, polynomial=0x1021)]. *)
Definition TransferDataCreator_init (data : bytes) (polynomial : Z)
  : TransferDataCreator :=
  mkTransferDataCreator polynomial data None.

Definition default_polynomial : Z := 0x1021.

(** One round of the loop body of [_calc_crc16_single_byte]. *)
Definition crc24_round (polynomial combined : Z) : Z :=
  let combined :=
    if negb (Z.land combined 0x800000 =? 0)
    then Z.lxor (Z.shiftl combined 1) (Z.shiftl polynomial 8)
    else Z.shiftl combined 1 in
  Z.land combined 0xFFFFFF.

(** [_calc_crc16_single_byte(self, byte, crc)]. *)
Definition _calc_crc16_single_byte (self : TransferDataCreator)
  (byte crc : Z) : Z :=
  let combined := Z.lxor crc (Z.shiftl byte 8) in
  let combined := Nat.iter 16 (crc24_round (_polynomial self)) combined in
  Z.land (Z.shiftr combined 8) 0xFFFF.

(** [calc_crc16(self, data, initial_crc=0x0)]. *)
Definition calc_crc16 (self : TransferDataCreator) (data : bytes)
  (initial_crc : Z) : Z :=
  fold_left (fun crc byte => _calc_crc16_single_byte self (byte_val byte) crc)
            data initial_crc.

(** [_pad_data(self, data)]: the [assert] is the [AssertionError] branch;
    [range(n)] runs [Z.to_nat n] times (no iteration for [n <= 0]). *)
Definition _pad_data (self : TransferDataCreator) (data : bytes)
  : result bytes :=
  let ret := data in
  let current_len := Z.of_nat (length data) in
  if negb (current_len <=? 1024) then Raise AssertionError
  else if current_len <=? 128 then
    Ok (Nat.iter (Z.to_nat (128 - current_len)) (fun ret => ret ++ [x00]) ret)
  else
    Ok (Nat.iter (Z.to_nat (1024 - current_len)) (fun ret => ret ++ [x00]) ret).

(** [_construct_single_chunk(self, data, block_num)]. *)
Definition _construct_single_chunk (self : TransferDataCreator)
  (data : bytes) (block_num : Z) : result bytes :=
  (let chunk := [] in
   let chunk :=
     if Z.of_nat (length data) >? 128 then chunk ++ STX else chunk ++ SOH in
   let? b := to_bytes block_num in
   let chunk := chunk ++ b in
   let? b := to_bytes (0xFF - block_num) in
   let chunk := chunk ++ b in
   let? data := _pad_data self data in
   let chunk := chunk ++ data in
   let crc := calc_crc16 self data 0x0 in
   let? b := to_bytes (Z.land (Z.shiftr crc 8) 0xFF) in
   let chunk := chunk ++ b in
   let? b := to_bytes (Z.land crc 0xFF) in
   let chunk := chunk ++ b in
   Ok chunk)%result.

(** The first loop of [get_transfer_chunks]: the state is
    [(data_parts, current_data, current_number_of_bytes)]. *)
Definition split_step (st : list bytes * bytes * Z) (byte : byte)
  : list bytes * bytes * Z :=
  let '(data_parts, current_data, current_number_of_bytes) := st in
  let current_data := current_data ++ [byte] in
  let current_number_of_bytes := current_number_of_bytes + 1 in
  if current_number_of_bytes =? 1024
  then (data_parts ++ [current_data], [], 0)
  else (data_parts, current_data, current_number_of_bytes).

Definition get_data_parts (data : bytes) : list bytes :=
  let '(data_parts, current_data, current_number_of_bytes) :=
    fold_left split_step data ([], [], 0) in
  if negb (current_number_of_bytes =? 0)
  then data_parts ++ [current_data]
  else data_parts.

(** The last loop of [get_transfer_chunks], over [data_parts]. *)
Fixpoint construct_parts (self : TransferDataCreator) (data_parts : list bytes)
  (block_num : Z) (chunks : list bytes) : result (list bytes) :=
  match data_parts with
  | [] => Ok chunks
  | part :: data_parts =>
      (let? chunk := _construct_single_chunk self part block_num in
       let chunks := chunks ++ [chunk] in
       let block_num := block_num + 1 in
       let block_num := if block_num >? 0xFF then 0x0 else block_num in
       construct_parts self data_parts block_num chunks)%result
  end.

(** [get_transfer_chunks(self)]. *)
Definition get_transfer_chunks (self : TransferDataCreator)
  : result (list bytes) :=
  let data_parts := get_data_parts (_data self) in
  let chunks := [] in
  let block_num := 0x1 in
  match _header self with
  | Some header =>
      (let? chunk := _construct_single_chunk self header block_num in
       let chunks := chunks ++ [chunk] in
       let block_num := block_num + 1 in
       construct_parts self data_parts block_num chunks)%result
  | None => construct_parts self data_parts block_num chunks
  end.

(** The byte of value [n mod 256]. *)
Definition byte_of_Z (n : Z) : byte :=
  match Byte.of_N (Z.to_N (n mod 256)) with
  | Some b => b
  | None => x00
  end.

(** One [L] field of [struct.pack] in big-endian order: an unsigned 32-bit
    integer; [struct.error] for a value outside [0, 2^32 - 1]. *)
Definition pack_L (n : Z) : result bytes :=
  if (0 <=? n) && (n <=? 0xFFFFFFFF) then
    Ok [byte_of_Z (Z.shiftr n 24); byte_of_Z (Z.shiftr n 16);
        byte_of_Z (Z.shiftr n 8); byte_of_Z n]
  else Raise StructError.

(** [struct.pack(">LLL", a, b, c)]. *)
Definition struct_pack_LLL (a b c : Z) : result bytes :=
  (let? a := pack_L a in
   let? b := pack_L b in
   let? c := pack_L c in
   Ok (a ++ b ++ c))%result.

(** [add_header(self, flash_offset, flash_size, flags)]. *)
Definition add_header (self : TransferDataCreator)
  (flash_offset flash_size flags : Z) : result TransferDataCreator :=
  (let? header := struct_pack_LLL flash_offset flash_size flags in
   Ok (mkTransferDataCreator (_polynomial self) (_data self)
                             (Some header)))%result.

(** The unsigned integer a big-endian byte string stands for (the reading
    of a header field by its consumer). *)
Definition int_from_bytes_big (b : bytes) : Z :=
  fold_left (fun acc x => acc * 256 + byte_val x) b 0.

(** ** The classic CCITT/XMODEM CRC-16

    The textbook bitwise formulation: a 16-bit register, the byte XORed into
    its high byte, then eight rounds of shift left and, when the bit shifted
    out was set, XOR with the polynomial. *)

Definition crc16_classic_round (polynomial crc : Z) : Z :=
  let crc :=
    if Z.testbit crc 15
    then Z.lxor (Z.shiftl crc 1) polynomial
    else Z.shiftl crc 1 in
  crc mod 2 ^ 16.

Definition crc16_classic_byte (polynomial byte crc : Z) : Z :=
  Nat.iter 8 (crc16_classic_round polynomial) (Z.lxor crc (Z.shiftl byte 8)).

Definition crc16_classic (polynomial : Z) (data : bytes) (initial : Z) : Z :=
  fold_left (fun crc byte => crc16_classic_byte polynomial (byte_val byte) crc)
            data initial.

(** ** The serial port and the session monad

    The pyserial object is an external device.  Its state is an arbitrary
    type [W]; each method the sender calls is a transition that returns a
    value or raises.  A session computation threads the device state and
    records, in order, every call it issues and every line it prints. *)

Inductive message : Type :=
| MsgWarning                      (* the banner printed by [main] *)
| MsgSending (index total : Z)    (* "Sending chunk {index} / {total} .." *)
| MsgResponse (response : bytes)  (* "response = {response}" *)
| MsgFinished.                    (* "Finished sending all chunks .." *)

Inductive event : Type :=
| EvOpen (path : string)   (* serial.Serial(path, ..., timeout=5) *)
| EvSleep (seconds : Z)    (* time.sleep *)
| EvReadAll                (* uart.read_all() *)
| EvRead                   (* uart.read() *)
| EvWrite (data : bytes)   (* uart.write(data) *)
| EvClose                  (* uart.close() *)
| EvPrint (m : message).

Record SerialPort (W : Type) : Type := mkSerialPort {
  port_open : string -> W -> result unit * W;
  port_sleep : Z -> W -> W;
  port_read_all : W -> result (option bytes) * W;
  port_read : W -> result bytes * W;
  port_write : bytes -> W -> result unit * W
}.

Arguments port_open {W} _ _ _.
Arguments port_sleep {W} _ _ _.
Arguments port_read_all {W} _ _.
Arguments port_read {W} _ _.
Arguments port_write {W} _ _ _.

Definition M (W A : Type) : Type := W -> result A * W * list event.

Definition ret {W A : Type} (a : A) : M W A := fun w => (Ok a, w, []).

Definition raise {W A : Type} (e : exception) : M W A :=
  fun w => (Raise e, w, []).

Definition bind {W A B : Type} (m : M W A) (k : A -> M W B) : M W B :=
  fun w =>
    match m w with
    | (Ok a, w1, t1) =>
        match k a w1 with
        | (r, w2, t2) => (r, w2, t1 ++ t2)
        end
    | (Raise e, w1, t1) => (Raise e, w1, t1)
    end.

Declare Scope session_scope.
Delimit Scope session_scope with session.
Notation "x <- m ;; k" := (bind m (fun x => k))
  (at level 61, m at next level, right associativity) : session_scope.
Notation "m ;; k" := (bind m (fun _ => k))
  (at level 61, right associativity) : session_scope.

(** A call on the device: the event is recorded whether the call returns or
    raises. *)
Definition call {W A : Type} (ev : event) (f : W -> result A * W) : M W A :=
  fun w => let '(r, w1) := f w in (r, w1, [ev]).

Definition print {W : Type} (m : message) : M W unit :=
  fun w => (Ok tt, w, [EvPrint m]).

(** Outcome, final device state and trace of a computation. *)
Definition outcome {W A : Type} (x : result A * W * list event) : result A :=
  fst (fst x).
Definition final {W A : Type} (x : result A * W * list event) : W :=
  snd (fst x).
Definition trace {W A : Type} (x : result A * W * list event) : list event :=
  snd x.

(** The byte strings written to the port, in order. *)
Fixpoint writes (t : list event) : list bytes :=
  match t with
  | [] => []
  | EvWrite d :: t => d :: writes t
  | _ :: t => writes t
  end.

(** [==] on [bytes]. *)
Fixpoint bytes_eqb (a b : bytes) : bool :=
  match a, b with
  | [], [] => true
  | x :: a, y :: b => Byte.eqb x y && bytes_eqb a b
  | _, _ => false
  end.

(** [bytes.endswith(suffix)]. *)
Definition endswith (b suffix : bytes) : bool :=
  (length suffix <=? length b)%nat
  && bytes_eqb (skipn (length b - length suffix) b) suffix.

(** The three failures [upload_data] raises itself. *)
Definition NoReadyMarker : exception :=
  OSError ("Didn't receive expected 'C' ping. "
           ++ "Please ensure the SoC is in UART mode and waiting for firmware").
Definition UnexpectedReply : exception :=
  OSError "Didn't receive expected ACK. Stopping transmission".
Definition NoFinalAck : exception :=
  OSError "No ACK received for EOT message".

(** ** class FirmwareUploader *)

Record FirmwareUploader : Type := mkFirmwareUploader {
  _chunks : list bytes;
  _uart_path : string
}.

Section Session.

Context {W : Type} (uart : SerialPort W).

Local Open Scope session_scope.

Definition uart_read_all : M W (option bytes) :=
  call EvReadAll (port_read_all uart).
Definition uart_read : M W bytes := call EvRead (port_read uart).
Definition uart_write (data : bytes) : M W unit :=
  call (EvWrite data) (port_write uart data).
Definition time_sleep (seconds : Z) : M W unit :=
  fun w => (Ok tt, port_sleep uart seconds w, [EvSleep seconds]).

(** Lines 159-168 of [upload_data]: create the port, then wait. *)
Definition open_port (self : FirmwareUploader) : M W unit :=
  call (EvOpen (_uart_path self)) (port_open uart (_uart_path self)) ;;
  time_sleep 3.

(** Lines 174-181: flush what is buffered and look for the 'C' ping. *)
Definition wait_for_ping : M W unit :=
  read_response <- uart_read_all ;;
  read_response <- match read_response with
                   | None => uart_read
                   | Some r => ret r
                   end ;;
  if (length read_response =? 0)%nat || negb (endswith read_response PING)
  then raise NoReadyMarker
  else ret tt.

(** Lines 183-198: the loop over [self._chunks]; [total] is
    [len(self._chunks)]. *)
Fixpoint send_chunks (total : Z) (chunks : list bytes) (index : Z)
  : M W unit :=
  match chunks with
  | [] => ret tt
  | chunk :: chunks =>
      print (MsgSending index total) ;;
      uart_write chunk ;;
      response <- uart_read ;;
      empty <- uart_read_all ;;
      if negb (bytes_eqb response ACK)
         || match empty with
            | Some e => negb (length e =? 0)%nat
            | None => false
            end
      then print (MsgResponse response) ;; raise UnexpectedReply
      else send_chunks total chunks (index + 1)
  end.

(** Lines 200-204: end of transmission. *)
Definition send_eot : M W unit :=
  uart_write EOT ;;
  response <- uart_read ;;
  if negb (bytes_eqb response ACK)
  then raise NoFinalAck
  else print MsgFinished.

(** [upload_data(self)]. *)
Definition upload_data (self : FirmwareUploader) : M W unit :=
  open_port self ;;
  wait_for_ping ;;
  send_chunks (Z.of_nat (length (_chunks self))) (_chunks self) 1 ;;
  send_eot.

(** The session up to the acknowledgement of the frames [sent]: the part
    of [upload_data] that has run when the loop is about to take the next
    chunk. *)
Definition session_prefix (self : FirmwareUploader) (sent : list bytes)
  : M W unit :=
  open_port self ;;
  wait_for_ping ;;
  send_chunks (Z.of_nat (length (_chunks self))) sent 1.

(** ** main *)

Record Namespace : Type := mkNamespace {
  file : string;
  uart_device : string;
  flash_offset : option Z;
  no_verify : bool
}.

Definition EmptyFile : exception :=
  OSError "Some error occurred while reading the data from the file".

(** Lines 236-248 of [main]: from the bytes read from [args.file] to the
    configured [TransferDataCreator]. *)
Definition main_creator (args : Namespace) (data : bytes)
  : result TransferDataCreator :=
  let flash_size := Z.of_nat (length data) in
  if (length data =? 0)%nat then Raise EmptyFile
  else
    let flags := 0x0 in
    let flags := if no_verify args then Z.lor flags NO_VERIFICATION
                 else flags in
    let transfer_data_creator :=
      TransferDataCreator_init data default_polynomial in
    match flash_offset args with
    | Some offset => add_header transfer_data_creator offset flash_size flags
    | None => Ok transfer_data_creator
    end.

Definition lift {A : Type} (r : result A) : M W A := fun w => (r, w, []).

(** [main(args)], where [data] is what reading [args.file] returned. *)
Definition main (args : Namespace) (data : bytes) : M W unit :=
  print MsgWarning ;;
  transfer_data_creator <- lift (main_creator args data) ;;
  chunks <- lift (get_transfer_chunks transfer_data_creator) ;;
  let uploader := mkFirmwareUploader chunks (uart_device args) in
  upload_data uploader.

End Session.

(** ** An in-memory serial device

    The receiver as a script: [rx] holds the bytes buffered on the sender's
    side, and every write makes the next entry of [replies] arrive.  [read]
    takes one byte (none when nothing is buffered: the timeout), [read_all]
    takes everything buffered. *)

Record FakeUart : Type := mkFakeUart {
  rx : bytes;
  replies : list bytes
}.

Definition fake_port : SerialPort FakeUart :=
  {| port_open := fun _ w => (Ok tt, w);
     port_sleep := fun _ w => w;
     port_read_all := fun w => (Ok (Some (rx w)), mkFakeUart [] (replies w));
     port_read := fun w =>
       match rx w with
       | [] => (Ok [], w)
       | b :: r => (Ok [b], mkFakeUart r (replies w))
       end;
     port_write := fun _ w =>
       match replies w with
       | [] => (Ok tt, w)
       | r :: rs => (Ok tt, mkFakeUart (rx w ++ r) rs)
       end |}.

(** ** Vocabulary of the statements *)

(** The size of the block that carries [n] bytes of content. *)
Definition block_size (n : nat) : nat :=
  if (n <=? 128)%nat then 128%nat else 1024%nat.

(** The start-of-frame marker of such a block. *)
Definition block_marker (n : nat) : byte :=
  if (n <=? 128)%nat then x01 else x02.

(** Content right-padded with zero bytes to its block size. *)
Definition padded_block (content : bytes) : bytes :=
  content ++ repeat x00 (block_size (length content) - length content).

(** The number of 1024-byte blocks a payload of [n] bytes is cut into:
    [ceil(n / 1024)]. *)
Definition block_count (n : nat) : nat := ((n + 1023) / 1024)%nat.

(** The [i]-th block of a payload: the slice [payload[1024*i : 1024*(i+1)]]. *)
Definition payload_block (payload : bytes) (i : nat) : bytes :=
  firstn 1024 (skipn (1024 * i) payload).

Definition payload_blocks (payload : bytes) : list bytes :=
  map (payload_block payload) (seq 0 (block_count (length payload))).

(** The sequence number of the frame at position [k] of a plan: it starts
    at 1 and goes from 255 to 0. *)
Definition sequence_number (k : nat) : Z := (Z.of_nat k + 1) mod 256.

(** What the frames of a plan carry, in order: the header, when there is
    one, then the payload blocks. *)
Definition plan_contents (self : TransferDataCreator) : list bytes :=
  match _header self with
  | Some header => [header]
  | None => []
  end ++ payload_blocks (_data self).

(** Scenario B of the specification: a 50-byte payload sent with a header
    for flash offset 0x1000. *)
Definition scenario_B_header : bytes :=
  [x00; x00; x10; x00; x00; x00; x00; x32; x00; x00; x00; x00].

Definition scenario_B : TransferDataCreator :=
  mkTransferDataCreator default_polynomial (repeat x07 50)
                        (Some scenario_B_header).

(** Opening and closing the port, as opposed to using it. *)
Definition is_port_lifecycle (e : event) : bool :=
  match e with
  | EvOpen _ | EvClose => true
  | _ => false
  end.

(** A trace that uses the port without opening or closing it. *)
Definition in_use (t : list event) : Prop :=
  Forall (fun e => is_port_lifecycle e = false) t.

(** The same payload and offset with verification switched off. *)
Definition scenario_B_no_verify_header : bytes :=
  [x00; x00; x10; x00; x00; x00; x00; x32; x00; x00; x00; x01].

Definition scenario_B_no_verify : TransferDataCreator :=
  mkTransferDataCreator default_polynomial (repeat x07 50)
                        (Some scenario_B_no_verify_header).

(** The arguments of a run that flashes at offset 0x1000 without
    verification. *)
Definition flash_args : Namespace :=
  mkNamespace "zephyr.bin" "/dev/ttyACM0" (Some 0x1000) true.

(** Sessions used as examples: an uploader with two short chunks, one with
    an empty plan, and scripted receivers. *)
Definition demo_chunks : list bytes :=
  [[x01; x01; xfe; x41]; [x01; x02; xfd; x42]].

Definition demo_uploader : FirmwareUploader :=
  mkFirmwareUploader demo_chunks "/dev/ttyACM0".

Definition empty_uploader : FirmwareUploader :=
  mkFirmwareUploader [] "/dev/ttyACM0".

(** Sends the ping, then answers the first frame with NAK. *)
Definition receiver_nak_first : FakeUart := mkFakeUart PING [NAK].

(** Sends boot output ending in the ping, then acknowledges everything, the
    end of transmission with an ACK followed by one more byte. *)
Definition receiver_stray_after_eot : FakeUart :=
  mkFakeUart ([x0a] ++ PING) [ACK; ACK; ACK ++ [x15]].

(** Sends the ping, then acknowledges one write. *)
Definition receiver_ack_once : FakeUart := mkFakeUart PING [ACK].

(** Sends boot output without a ping. *)
Definition receiver_not_ready : FakeUart := mkFakeUart [x0a; x0d] [].

(** What a receiver takes out of a frame: the bytes between the 3-byte
    header and the 2 checksum bytes. *)
Definition frame_block (frame : bytes) : bytes :=
  firstn (length frame - 5) (skipn 3 frame).

(** The frames of a plan that carry payload: all but the header frame. *)
Definition payload_frames (self : TransferDataCreator) (plan : list bytes)
  : list bytes :=
  match _header self with
  | Some _ => tl plan
  | None => plan
  end.

(** The plan of scenario B, computed. *)
Definition scenario_B_plan : list bytes :=
  Eval vm_compute in
    match get_transfer_chunks scenario_B with
    | Ok plan => plan
    | Raise _ => []
    end.

(** The progress reports of a trace: index and total of every
    "Sending chunk" line, in order. *)
Fixpoint reports (t : list event) : list (Z * Z) :=
  match t with
  | [] => []
  | EvPrint (MsgSending index total) :: t => (index, total) :: reports t
  | _ :: t => reports t
  end.

(** Some call on the port raises [e] in some state. *)
Definition port_raises {W : Type} (uart : SerialPort W) (e : exception)
  : Prop :=
  exists w w',
    (exists path, port_open uart path w = (Raise e, w'))
    \/ port_read_all uart w = (Raise e, w')
    \/ port_read uart w = (Raise e, w')
    \/ (exists data, port_write uart data w = (Raise e, w')).

(** A receiver that sends the ping and then acknowledges [n] writes. *)
Definition receiver_acks (n : nat) : FakeUart := mkFakeUart PING (repeat ACK n).

(** Arguments with a flash offset that does not fit 32 bits. *)
Definition bad_offset_args : Namespace :=
  mkNamespace "zephyr.bin" "/dev/ttyACM0" (Some (-1)) false.

(** Arguments without a flash offset. *)
Definition plain_args : Namespace :=
  mkNamespace "zephyr.bin" "/dev/ttyACM0" None false.

(** ** The west runner

    [scripts/west_commands/runners/xmodem1k_sender.py]: the classes
    [FlashHeader] and [Xmodem1KSender].  The runner starts the sender script
    as a subprocess.  What is modelled is what the runner decides itself:
    the options it forwards, the command line it hands to [check_call], the
    warnings it logs and the [RuntimeError] it raises.  [ZEPHYR_BASE] and
    [sys.executable] are parameters; [os.path.join] is the POSIX one. *)

Module Runner.

Local Open Scope string_scope.

(** [str(x)] for [x] an [int] or [None]. *)
Definition str (x : option Z) : string :=
  match x with
  | Some n => NilZero.string_of_int (Z.to_int n)
  | None => "None"
  end.

Fixpoint endswith_sep (path : string) : bool :=
  match path with
  | EmptyString => false
  | String c EmptyString => Ascii.eqb c "/"%char
  | String _ rest => endswith_sep rest
  end.

(** [posixpath.join(a, *p)]. *)
Definition path_join (a : string) (p : list string) : string :=
  fold_left
    (fun path b =>
       if String.prefix "/" b then b
       else if (String.length path =? 0)%nat || endswith_sep path
            then path ++ b
            else path ++ "/" ++ b)
    p a.

(** [class FlashHeader]. *)
Record FlashHeader : Type := mkFlashHeader {
  _options : list string
}.

Definition FlashHeader_init (offset : option Z)
  (further_options : list string) : FlashHeader :=
  let _options := ["--flash-offset"; str offset] in
  let _options := (_options ++ further_options)%list in
  mkFlashHeader _options.

Definition get_options (self : FlashHeader) : list string := _options self.

Inductive warning : Type :=
| DefaultDevice (dev_id : string)  (* "Device ID wasn't specified. ..." *)
| PlainTransfer.                   (* "This runner just sends a file ..." *)

(** A result or [RuntimeError], with the warnings logged on the way. *)
Inductive created (A : Type) : Type :=
| Created (a : A) (log : list warning)
| RuntimeError (msg : string).

Arguments Created {A} a log.
Arguments RuntimeError {A} msg.

(** [class Xmodem1KSender]. *)
Record Xmodem1KSender : Type := mkXmodem1KSender {
  _script_path : string;
  _flash_header : option FlashHeader;
  _file : string;
  _dev_id : string
}.

Definition Xmodem1KSender_init (ZEPHYR_BASE : string)
  (dev_id file : option string) (flash_header : option FlashHeader)
  : created Xmodem1KSender :=
  let _script_path :=
    path_join ZEPHYR_BASE ["scripts"; "support"; "xmodem1k_sender.py"] in
  match file with
  | None =>
      RuntimeError
        "XMODEM1k binary runner is missing path to file that should be sent"
  | Some _file =>
      match dev_id with
      | None =>
          Created (mkXmodem1KSender _script_path flash_header _file
                                    "/dev/ttyACM0")
                  [DefaultDevice "/dev/ttyACM0"]
      | Some _dev_id =>
          Created (mkXmodem1KSender _script_path flash_header _file _dev_id)
                  []
      end
  end.

(** The arguments the runner is created from. *)
Record args : Type := mkArgs {
  dev_id : option string;
  file : option string;
  no_header : bool;
  flash_offset : option Z;
  no_verify : bool
}.

(** [do_create(cls, cfg, args)]. *)
Definition do_create (ZEPHYR_BASE : string) (a : args)
  : created Xmodem1KSender :=
  let flash_header :=
    if negb (no_header a) then
      let extra_options := [] in
      let extra_options :=
        if no_verify a then (extra_options ++ ["--no-verify"])%list
        else extra_options in
      Some (FlashHeader_init (flash_offset a) extra_options)
    else None in
  Xmodem1KSender_init ZEPHYR_BASE (dev_id a) (file a) flash_header.

(** [do_run(self, command)]: the command handed to [check_call] and the
    warnings logged before. *)
Definition do_run (executable : string) (self : Xmodem1KSender)
  : list string * list warning :=
  let cmd := [executable; _script_path self; "--uart-device"; _dev_id self;
              "--file"; _file self] in
  match _flash_header self with
  | Some header => ((cmd ++ get_options header)%list, [])
  | None => (cmd, [PlainTransfer])
  end.

End Runner.

(** Runner arguments: a file, no device, a header at offset 0x1000 and no
    verification. *)
Definition runner_demo_args : Runner.args :=
  Runner.mkArgs None (Some "zephyr.bin"%string) false (Some 0x1000) true.

(** * Proofs *)

(** ** Bytes *)

Lemma byte_val_range (b : byte) : 0 <= byte_val b < 256.
Proof.
  unfold byte_val. pose proof (Byte.to_N_bounded b). lia.
Qed.

Lemma of_N_Some (n : N) : (n <= 255)%N -> exists b, Byte.of_N n = Some b.
Proof.
  intro H. destruct (Byte.of_N n) as [b|] eqn:E; [now exists b|].
  apply Byte.of_N_None_iff in E. lia.
Qed.

Lemma to_bytes_ok (n : Z) :
  0 <= n <= 255 -> exists b, to_bytes n = Ok [b] /\ byte_val b = n.
Proof.
  intro H. unfold to_bytes.
  replace ((0 <=? n) && (n <=? 255)) with true
    by (symmetry; apply andb_true_iff; split; apply Z.leb_le; lia).
  destruct (of_N_Some (Z.to_N n)) as [b Hb]; [lia|].
  rewrite Hb. exists b. split; [reflexivity|].
  unfold byte_val. apply Byte.to_of_N in Hb. rewrite Hb. lia.
Qed.

(** ** The checksum *)

Section Crc.

Variable polynomial : Z.

Lemma land_pow2_eqb (c n : Z) :
  0 <= n -> (Z.land c (2 ^ n) =? 0) = negb (Z.testbit c n).
Proof.
  intro Hn. destruct (Z.testbit c n) eqn:E; simpl.
  - apply Z.eqb_neq. intro H0.
    assert (T : Z.testbit (Z.land c (2 ^ n)) n = true)
      by (rewrite Z.land_spec, E, Z.pow2_bits_true; auto).
    rewrite H0, Z.bits_0 in T. discriminate.
  - apply Z.eqb_eq. apply Z.bits_inj'. intros m Hm.
    rewrite Z.land_spec, Z.bits_0, Z.pow2_bits_eqb by assumption.
    destruct (Z.eqb_spec n m) as [->|]; [now rewrite E|apply andb_false_r].
Qed.

(** The round of the source, with its tests and masks read as bit tests
    and remainders. *)
Lemma crc24_round_eq (c : Z) :
  crc24_round polynomial c =
  (if Z.testbit c 23
   then Z.lxor (Z.shiftl c 1) (Z.shiftl polynomial 8)
   else Z.shiftl c 1) mod 2 ^ 24.
Proof.
  unfold crc24_round.
  change 0x800000 with (2 ^ 23). change 0xFFFFFF with (Z.ones 24).
  rewrite land_pow2_eqb, negb_involutive, Z.land_ones by lia.
  reflexivity.
Qed.

(** While the top byte of the working value is empty a round only
    shifts. *)
Lemma crc24_round_small (c : Z) :
  0 <= c < 2 ^ 23 -> crc24_round polynomial c = 2 * c.
Proof.
  intro H. rewrite crc24_round_eq.
  assert (T : Z.testbit c 23 = false).
  { destruct (Z.eq_dec c 0) as [->|]; [apply Z.bits_0|].
    apply Z.bits_above_log2; [lia|].
    apply Z.log2_lt_pow2; lia. }
  rewrite T, Z.shiftl_mul_pow2 by lia.
  rewrite Z.mod_small; lia.
Qed.

Lemma crc24_iter_small (k : nat) (c : Z) :
  (k <= 8)%nat -> 0 <= c < 2 ^ 16 ->
  Nat.iter k (crc24_round polynomial) c = c * 2 ^ Z.of_nat k.
Proof.
  intros Hk Hc. induction k as [|k IH].
  - simpl. lia.
  - rewrite Nat.iter_succ, IH by lia.
    assert (0 < 2 ^ Z.of_nat k <= 2 ^ 7)
      by (split; [apply Z.pow_pos_nonneg|apply Z.pow_le_mono_r]; lia).
    rewrite crc24_round_small by nia.
    rewrite Nat2Z.inj_succ, Z.pow_succ_r by lia. lia.
Qed.

(** With the register in the upper 16 bits, a round of the 24-bit method
    is a round of the classic method. *)
Lemma crc24_round_shifted (c : Z) :
  crc24_round polynomial (Z.shiftl c 8) =
  Z.shiftl (crc16_classic_round polynomial c) 8.
Proof.
  rewrite crc24_round_eq. unfold crc16_classic_round.
  rewrite Z.shiftl_spec by lia. change (23 - 8) with 15.
  assert (S1 : Z.shiftl (Z.shiftl c 8) 1 = Z.shiftl (Z.shiftl c 1) 8)
    by (rewrite !Z.shiftl_shiftl by lia; reflexivity).
  rewrite S1, <- Z.shiftl_lxor.
  assert (D : forall y, Z.shiftl y 8 mod 2 ^ 24 = Z.shiftl (y mod 2 ^ 16) 8).
  { intro y. rewrite !Z.shiftl_mul_pow2 by lia.
    change (2 ^ 24) with (2 ^ 16 * 2 ^ 8).
    apply Z.mul_mod_distr_r; lia. }
  destruct (Z.testbit c 15); apply D.
Qed.

Lemma crc24_iter_shifted (k : nat) (c : Z) :
  Nat.iter k (crc24_round polynomial) (Z.shiftl c 8) =
  Z.shiftl (Nat.iter k (crc16_classic_round polynomial) c) 8.
Proof.
  induction k as [|k IH]; [reflexivity|].
  rewrite !Nat.iter_succ, IH. apply crc24_round_shifted.
Qed.

Lemma crc16_classic_round_range (c : Z) :
  0 <= crc16_classic_round polynomial c < 2 ^ 16.
Proof. unfold crc16_classic_round. apply Z.mod_pos_bound. lia. Qed.

Lemma crc16_classic_byte_range (byte crc : Z) :
  0 <= crc16_classic_byte polynomial byte crc < 2 ^ 16.
Proof.
  unfold crc16_classic_byte. change 8%nat with (S 7).
  rewrite Nat.iter_succ. apply crc16_classic_round_range.
Qed.

Lemma lxor_range (n a b : Z) :
  0 <= n -> 0 <= a < 2 ^ n -> 0 <= b < 2 ^ n -> 0 <= Z.lxor a b < 2 ^ n.
Proof.
  intros Hn Ha Hb.
  assert (E : Z.lxor a b mod 2 ^ n = Z.lxor a b).
  { apply Z.bits_inj'. intros m Hm. destruct (Z.lt_ge_cases m n).
    - now rewrite Z.mod_pow2_bits_low by lia.
    - rewrite Z.mod_pow2_bits_high, Z.lxor_spec by lia.
      rewrite <- (Z.mod_small a (2 ^ n)), <- (Z.mod_small b (2 ^ n)) by lia.
      now rewrite !Z.mod_pow2_bits_high by lia. }
  rewrite <- E. apply Z.mod_pos_bound. lia.
Qed.

End Crc.

Lemma calc_crc16_single_byte_classic (self : TransferDataCreator)
  (byte crc : Z) :
  0 <= byte < 256 -> 0 <= crc < 2 ^ 16 ->
  _calc_crc16_single_byte self byte crc =
  crc16_classic_byte (_polynomial self) byte crc.
Proof.
  intros Hb Hc. unfold _calc_crc16_single_byte, crc16_classic_byte.
  set (c0 := Z.lxor crc (Z.shiftl byte 8)).
  assert (R0 : 0 <= c0 < 2 ^ 16).
  { apply lxor_range; [lia|lia|].
    rewrite Z.shiftl_mul_pow2 by lia. lia. }
  change 16%nat with (8 + 8)%nat. rewrite Nat.iter_add.
  rewrite (crc24_iter_small _ 8 c0) by (auto; lia).
  rewrite <- Z.shiftl_mul_pow2 by lia. change (Z.of_nat 8) with 8.
  rewrite crc24_iter_shifted.
  rewrite Z.shiftr_shiftl_l by lia. change (8 - 8) with 0.
  rewrite Z.shiftl_0_r. change 0xFFFF with (Z.ones 16).
  rewrite Z.land_ones by lia. apply Z.mod_small.
  change 8%nat with (S 7). rewrite Nat.iter_succ.
  apply crc16_classic_round_range.
Qed.

Lemma fold_left_cons {A B : Type} (f : A -> B -> A) (b : B) (l : list B)
  (i : A) :
  fold_left f (b :: l) i = fold_left f l (f i b).
Proof. reflexivity. Qed.

Lemma calc_crc16_range (self : TransferDataCreator) (data : bytes)
  (initial : Z) :
  0 <= initial < 2 ^ 16 -> 0 <= calc_crc16 self data initial < 2 ^ 16.
Proof.
  unfold calc_crc16. revert initial.
  induction data as [|b data IH]; intros initial H; [assumption|].
  rewrite fold_left_cons. apply IH. rewrite calc_crc16_single_byte_classic
    by auto using byte_val_range.
  apply crc16_classic_byte_range.
Qed.

(** C1. For every byte sequence, every polynomial and every 16-bit initial
    value, the checksum [calc_crc16] computes with its 24-bit working value
    (sixteen rounds per byte) is the classic CCITT/XMODEM CRC-16 of the data:
    16-bit register, byte XORed into the high byte, eight rounds per byte. *)
Theorem calc_crc16_is_classic_crc16 (self : TransferDataCreator)
  (data : bytes) (initial : Z) :
  0 <= initial < 2 ^ 16 ->
  calc_crc16 self data initial =
  crc16_classic (_polynomial self) data initial.
Proof.
  unfold calc_crc16, crc16_classic. revert initial.
  induction data as [|b data IH]; intros initial H; [reflexivity|].
  rewrite !fold_left_cons.
  rewrite calc_crc16_single_byte_classic by auto using byte_val_range.
  apply IH. apply crc16_classic_byte_range.
Qed.

Lemma calc_crc16_is_classic_crc16_witness :
  calc_crc16 (TransferDataCreator_init [] 0x1021)
             [x31; x32; x33; x34; x35; x36; x37; x38; x39] 0 =
  crc16_classic 0x1021 [x31; x32; x33; x34; x35; x36; x37; x38; x39] 0.
Proof.
  apply (calc_crc16_is_classic_crc16 (TransferDataCreator_init [] 0x1021)).
  lia.
Defined.

(** ** Frame construction *)

Lemma iter_append_zero (n : nat) (data : bytes) :
  Nat.iter n (fun ret => ret ++ [x00]) data = data ++ repeat x00 n.
Proof.
  induction n as [|n IH].
  - cbn. now rewrite app_nil_r.
  - rewrite Nat.iter_succ, IH, <- app_assoc.
    f_equal. cbn [repeat]. symmetry. apply repeat_cons.
Qed.

Lemma pad_data_ok (self : TransferDataCreator) (data : bytes) :
  (length data <= 1024)%nat ->
  _pad_data self data = Ok (padded_block data).
Proof.
  intro H. unfold _pad_data, padded_block, block_size.
  replace (Z.of_nat (length data) <=? 1024) with true
    by (symmetry; apply Z.leb_le; lia).
  cbn [negb].
  destruct (Nat.leb_spec (length data) 128) as [L|L].
  - replace (Z.of_nat (length data) <=? 128) with true
      by (symmetry; apply Z.leb_le; lia).
    rewrite iter_append_zero. do 2 f_equal. f_equal. lia.
  - replace (Z.of_nat (length data) <=? 128) with false
      by (symmetry; apply Z.leb_gt; lia).
    rewrite iter_append_zero. do 2 f_equal. f_equal. lia.
Qed.

Lemma padded_block_length (content : bytes) :
  (length content <= 1024)%nat ->
  length (padded_block content) = block_size (length content).
Proof.
  intro H. unfold padded_block.
  rewrite length_app, repeat_length. unfold block_size.
  destruct (Nat.leb_spec (length content) 128); lia.
Qed.

Lemma marker_choice (data : bytes) :
  (if Z.of_nat (length data) >? 128 then [] ++ STX else [] ++ SOH)
  = [block_marker (length data)].
Proof.
  unfold block_marker.
  destruct (Nat.leb_spec (length data) 128) as [L|L].
  - replace (Z.of_nat (length data) >? 128) with false; [reflexivity|].
    symmetry. rewrite Z.gtb_ltb. apply Z.ltb_ge. lia.
  - replace (Z.of_nat (length data) >? 128) with true; [reflexivity|].
    symmetry. rewrite Z.gtb_ltb. apply Z.ltb_lt. lia.
Qed.

(** The frame [_construct_single_chunk] builds, byte for byte. *)
Lemma construct_single_chunk_ok (self : TransferDataCreator)
  (content : bytes) (seq : Z) :
  (length content <= 1024)%nat -> 0 <= seq <= 255 ->
  exists sb cb hi lo,
    _construct_single_chunk self content seq =
      Ok ([block_marker (length content); sb; cb]
            ++ padded_block content ++ [hi; lo])
    /\ byte_val sb = seq
    /\ byte_val cb = 0xFF - seq
    /\ byte_val hi = calc_crc16 self (padded_block content) 0 / 256
    /\ byte_val lo = calc_crc16 self (padded_block content) 0 mod 256.
Proof.
  intros Hlen Hseq. unfold _construct_single_chunk.
  rewrite marker_choice.
  destruct (to_bytes_ok seq) as (sb & Esb & Vsb); [lia|].
  destruct (to_bytes_ok (0xFF - seq)) as (cb & Ecb & Vcb); [lia|].
  rewrite Esb. cbn [rbind]. rewrite Ecb. cbn [rbind].
  rewrite (pad_data_ok self content Hlen). cbn [rbind].
  set (crc := calc_crc16 self (padded_block content) 0).
  assert (Hcrc : 0 <= crc < 2 ^ 16) by (apply calc_crc16_range; lia).
  assert (Ehi : Z.land (Z.shiftr crc 8) 0xFF = crc / 256).
  { change 0xFF with (Z.ones 8).
    rewrite Z.land_ones, Z.shiftr_div_pow2 by lia.
    change (2 ^ 8) with 256. apply Z.mod_small.
    change (2 ^ 16) with 65536 in Hcrc.
    split; [apply Z.div_pos; lia|apply Z.div_lt_upper_bound; lia]. }
  assert (Elo : Z.land crc 0xFF = crc mod 256).
  { change 0xFF with (Z.ones 8). now rewrite Z.land_ones by lia. }
  rewrite Ehi, Elo.
  destruct (to_bytes_ok (crc / 256)) as (hi & Ehi' & Vhi).
  { change (2 ^ 16) with 65536 in Hcrc.
    split; [apply Z.div_pos; lia|].
    assert (crc / 256 < 256) by (apply Z.div_lt_upper_bound; lia). lia. }
  destruct (to_bytes_ok (crc mod 256)) as (lo & Elo' & Vlo).
  { pose proof (Z.mod_pos_bound crc 256). lia. }
  rewrite Ehi'. cbn [rbind]. rewrite Elo'. cbn [rbind].
  exists sb, cb, hi, lo. repeat split; try assumption.
  f_equal. cbn [app]. rewrite <- !app_assoc. reflexivity.
Qed.

Lemma firstn_skipn_frame (h : bytes) (content rest : bytes) :
  firstn (length content) (skipn (length h) (h ++ content ++ rest)) = content.
Proof.
  rewrite skipn_app, Nat.sub_diag, skipn_all, skipn_O, app_nil_l.
  rewrite firstn_app, Nat.sub_diag, firstn_all, firstn_O.
  apply app_nil_r.
Qed.

(** C2, as stated, fails: a frame is 3 header bytes, the block and 2 checksum
    bytes, that is 133 bytes for a 128-byte block (not 134) and 1029 bytes
    for a 1024-byte block (not 1030). *)
Lemma frame_length_is_not_134 :
  exists frame,
    _construct_single_chunk (TransferDataCreator_init [] default_polynomial)
                            [x05; x06] 7 = Ok frame
    /\ length frame = 133%nat
    /\ length frame <> 134%nat.
Proof.
  eexists. split; [vm_compute; reflexivity|].
  split; [reflexivity|discriminate].
Qed.

(** C2, amended. For every content of at most 1024 bytes and every sequence
    number in [0,255], the frame built with the default polynomial 0x1021 is
    marker, seq, 0xFF - seq, the content right-padded with zero bytes (to 128
    bytes when the content has at most 128 bytes, to 1024 bytes otherwise),
    then the high and the low byte of the CRC-16 (initial value 0) of the
    padded block only.  The frame has 133 bytes and marker 0x01 for content
    of at most 128 bytes, 1029 bytes and marker 0x02 for longer content, and
    the first [len(content)] bytes after the 3-byte header are the content. *)
Theorem construct_single_chunk_frame (data : bytes) (header : option bytes)
  (content : bytes) (seq : Z) :
  let self := mkTransferDataCreator default_polynomial data header in
  let crc := calc_crc16 self (padded_block content) 0x0 in
  (length content <= 1024)%nat ->
  0 <= seq <= 255 ->
  exists frame sb cb hi lo,
    _construct_single_chunk self content seq = Ok frame
    /\ frame = [block_marker (length content); sb; cb]
                 ++ padded_block content ++ [hi; lo]
    /\ byte_val sb = seq
    /\ byte_val cb = 0xFF - seq
    /\ byte_val hi = crc / 256
    /\ byte_val lo = crc mod 256
    /\ ((length content <= 128)%nat ->
        length (padded_block content) = 128%nat
        /\ length frame = 133%nat /\ hd_error frame = Some x01)
    /\ ((128 < length content)%nat ->
        length (padded_block content) = 1024%nat
        /\ length frame = 1029%nat /\ hd_error frame = Some x02)
    /\ firstn (length content) (skipn 3 frame) = content.
Proof.
  intros self crc Hlen Hseq.
  destruct (construct_single_chunk_ok self content seq Hlen Hseq)
    as (sb & cb & hi & lo & E & Vs & Vc & Vh & Vl).
  exists ([block_marker (length content); sb; cb]
            ++ padded_block content ++ [hi; lo]), sb, cb, hi, lo.
  pose proof (padded_block_length content Hlen) as HL.
  unfold block_size, block_marker in *.
  repeat split; try assumption.
  - destruct (Nat.leb_spec (length content) 128); [assumption|lia].
  - rewrite length_app, length_app, HL.
    destruct (Nat.leb_spec (length content) 128); cbn [length]; lia.
  - destruct (Nat.leb_spec (length content) 128); [reflexivity|lia].
  - destruct (Nat.leb_spec (length content) 128); [lia|assumption].
  - rewrite length_app, length_app, HL.
    destruct (Nat.leb_spec (length content) 128); cbn [length]; lia.
  - destruct (Nat.leb_spec (length content) 128); [lia|reflexivity].
  - unfold padded_block. rewrite <- app_assoc.
    apply (firstn_skipn_frame [_; sb; cb]).
Qed.

Lemma construct_single_chunk_frame_witness :
  exists frame sb cb hi lo,
    _construct_single_chunk
      (mkTransferDataCreator default_polynomial [] None) [x05; x06] 7
      = Ok frame
    /\ frame = [block_marker 2; sb; cb] ++ padded_block [x05; x06] ++ [hi; lo]
    /\ byte_val sb = 7
    /\ byte_val cb = 0xFF - 7
    /\ byte_val hi =
       calc_crc16 (mkTransferDataCreator default_polynomial [] None)
                  (padded_block [x05; x06]) 0x0 / 256
    /\ byte_val lo =
       calc_crc16 (mkTransferDataCreator default_polynomial [] None)
                  (padded_block [x05; x06]) 0x0 mod 256
    /\ ((2 <= 128)%nat ->
        length (padded_block [x05; x06]) = 128%nat
        /\ length frame = 133%nat /\ hd_error frame = Some x01)
    /\ ((128 < 2)%nat ->
        length (padded_block [x05; x06]) = 1024%nat
        /\ length frame = 1029%nat /\ hd_error frame = Some x02)
    /\ firstn 2 (skipn 3 frame) = [x05; x06].
Proof.
  apply (construct_single_chunk_frame [] None [x05; x06] 7).
  - cbn [length]. lia.
  - lia.
Defined.

(** ** Chunk planning *)

Lemma block_count_add_block (m : nat) :
  block_count (1024 + m) = S (block_count m).
Proof.
  unfold block_count.
  replace (1024 + m + 1023)%nat with (1 * 1024 + (m + 1023))%nat by lia.
  rewrite Nat.div_add_l by lia. reflexivity.
Qed.

Lemma payload_block_length (payload : bytes) (i : nat) :
  length (payload_block payload i)
  = Nat.min 1024 (length payload - 1024 * i).
Proof.
  unfold payload_block. now rewrite length_firstn, length_skipn.
Qed.

Lemma payload_blocks_cons (x y : bytes) :
  length x = 1024%nat -> payload_blocks (x ++ y) = x :: payload_blocks y.
Proof.
  intro Hx. unfold payload_blocks.
  rewrite length_app, Hx, block_count_add_block.
  cbn [seq map]. f_equal.
  - unfold payload_block. rewrite Nat.mul_0_r, skipn_O.
    rewrite firstn_app, Hx, Nat.sub_diag, firstn_O, app_nil_r.
    rewrite <- Hx. apply firstn_all.
  - rewrite <- seq_shift, map_map. apply map_ext. intro i.
    unfold payload_block. f_equal.
    rewrite skipn_app, Hx.
    replace (1024 * S i - 1024)%nat with (1024 * i)%nat by lia.
    rewrite skipn_all2 by lia. reflexivity.
Qed.

Lemma payload_blocks_short (cur : bytes) :
  (length cur < 1024)%nat ->
  payload_blocks cur = if (length cur =? 0)%nat then [] else [cur].
Proof.
  intro H. unfold payload_blocks, block_count.
  destruct (Nat.eqb_spec (length cur) 0) as [E|E].
  - rewrite E. reflexivity.
  - replace ((length cur + 1023) / 1024)%nat with 1%nat.
    + cbn [seq map]. unfold payload_block.
      rewrite Nat.mul_0_r, skipn_O, firstn_all2 by lia. reflexivity.
    + apply Nat.div_unique with (r := (length cur - 1)%nat); lia.
Qed.

Lemma split_step_eq (parts : list bytes) (cur : bytes) (n : Z) (b : byte) :
  split_step (parts, cur, n) b =
  if n + 1 =? 1024 then (parts ++ [cur ++ [b]], [], 0)
  else (parts, cur ++ [b], n + 1).
Proof. reflexivity. Qed.

(** The first loop of [get_transfer_chunks], from any state it can be in. *)
Lemma split_fold (data : bytes) :
  forall (parts : list bytes) (cur : bytes),
    (length cur < 1024)%nat ->
    (let '(data_parts, current_data, current_number_of_bytes) :=
       fold_left split_step data (parts, cur, Z.of_nat (length cur)) in
     if negb (current_number_of_bytes =? 0)
     then data_parts ++ [current_data]
     else data_parts)
    = parts ++ payload_blocks (cur ++ data).
Proof.
  induction data as [|b data IH]; intros parts cur Hcur.
  - cbn [fold_left]. rewrite app_nil_r, payload_blocks_short by assumption.
    destruct (Nat.eqb_spec (length cur) 0) as [E|E].
    + replace (Z.of_nat (length cur) =? 0) with true
        by (symmetry; apply Z.eqb_eq; lia).
      cbn [negb]. now rewrite app_nil_r.
    + replace (Z.of_nat (length cur) =? 0) with false
        by (symmetry; apply Z.eqb_neq; lia).
      reflexivity.
  - rewrite fold_left_cons, split_step_eq.
    destruct (Z.eqb_spec (Z.of_nat (length cur) + 1) 1024) as [E|E].
    + specialize (IH (parts ++ [cur ++ [b]]) [] ltac:(cbn; lia)).
      cbn [length] in IH. change (Z.of_nat 0) with 0 in IH.
      etransitivity; [exact IH|]. cbn [app].
      replace (cur ++ b :: data) with ((cur ++ [b]) ++ data)
        by (now rewrite <- app_assoc).
      rewrite payload_blocks_cons
        by (rewrite length_app; cbn [length]; lia).
      now rewrite <- app_assoc.
    + specialize (IH parts (cur ++ [b])).
      rewrite length_app in IH. cbn [length] in IH.
      replace (Z.of_nat (length cur + 1)) with (Z.of_nat (length cur) + 1)
        in IH by lia.
      etransitivity; [apply IH; lia|]. now rewrite <- app_assoc.
Qed.

Lemma get_data_parts_blocks (data : bytes) :
  get_data_parts data = payload_blocks data.
Proof.
  unfold get_data_parts.
  exact (split_fold data [] [] ltac:(cbn; lia)).
Qed.

Lemma payload_blocks_bounded (data : bytes) :
  Forall (fun part => (length part <= 1024)%nat) (payload_blocks data).
Proof.
  apply Forall_forall. intros part Hin.
  apply in_map_iff in Hin. destruct Hin as (i & <- & _).
  rewrite payload_block_length. lia.
Qed.

Lemma construct_parts_cons (self : TransferDataCreator) (part : bytes)
  (parts : list bytes) (block_num : Z) (chunks : list bytes) :
  construct_parts self (part :: parts) block_num chunks =
  rbind (_construct_single_chunk self part block_num)
        (fun chunk =>
           construct_parts self parts
             (if block_num + 1 >? 0xFF then 0x0 else block_num + 1)
             (chunks ++ [chunk])).
Proof. reflexivity. Qed.

Lemma next_block_num (block_num : Z) :
  0 <= block_num <= 255 ->
  (if block_num + 1 >? 0xFF then 0x0 else block_num + 1)
  = (block_num + 1) mod 256.
Proof.
  intro H. destruct (Z.gtb_spec (block_num + 1) 0xFF) as [G|G].
  - replace (block_num + 1) with 256 by lia. reflexivity.
  - symmetry. apply Z.mod_small. lia.
Qed.

(** The last loop of [get_transfer_chunks]: every part becomes a frame, and
    the part at position [i] gets the number [(block_num + i) mod 256]. *)
Lemma construct_parts_ok (self : TransferDataCreator) (parts : list bytes) :
  Forall (fun part => (length part <= 1024)%nat) parts ->
  forall (block_num : Z) (chunks : list bytes),
    0 <= block_num <= 255 ->
    exists frames,
      construct_parts self parts block_num chunks = Ok (chunks ++ frames)
      /\ length frames = length parts
      /\ forall i content,
           nth_error parts i = Some content ->
           exists frame,
             nth_error frames i = Some frame
             /\ _construct_single_chunk self content
                  ((block_num + Z.of_nat i) mod 256) = Ok frame.
Proof.
  induction 1 as [|part parts Hpart Hparts IH]; intros block_num chunks Hbn.
  - exists []. cbn [construct_parts]. rewrite app_nil_r.
    split; [reflexivity|]. split; [reflexivity|].
    intros [|i] content; discriminate.
  - rewrite construct_parts_cons.
    destruct (construct_single_chunk_ok self part block_num Hpart Hbn)
      as (sb & cb & hi & lo & E & _).
    set (frame0 := _ ++ _) in E.
    rewrite E. cbn [rbind]. rewrite next_block_num by assumption.
    destruct (IH ((block_num + 1) mod 256) (chunks ++ [frame0]))
      as (frames & Eframes & Hlen & Hnth).
    { pose proof (Z.mod_pos_bound (block_num + 1) 256). lia. }
    exists (frame0 :: frames).
    split; [etransitivity; [exact Eframes|]; now rewrite <- app_assoc|].
    split; [cbn [length]; now rewrite Hlen|].
    intros [|i] content Hi.
    + cbn [nth_error] in *. injection Hi as <-.
      eexists. split; [reflexivity|].
      rewrite Z.add_0_r, Z.mod_small by lia. exact E.
    + cbn [nth_error] in *. destruct (Hnth i content Hi) as (frame & F1 & F2).
      exists frame. split; [assumption|].
      rewrite Zplus_mod_idemp_l in F2.
      replace (block_num + Z.of_nat (S i)) with (block_num + 1 + Z.of_nat i)
        by lia.
      exact F2.
Qed.

Lemma sequence_number_next (k : nat) :
  sequence_number (S k) =
  if sequence_number k + 1 >? 0xFF then 0x0 else sequence_number k + 1.
Proof.
  unfold sequence_number.
  pose proof (Z.mod_pos_bound (Z.of_nat k + 1) 256 ltac:(lia)) as B.
  rewrite next_block_num by lia.
  rewrite Zplus_mod_idemp_l. f_equal. lia.
Qed.

Lemma sequence_numbers_distinct (m : nat) :
  (m <= 255)%nat -> NoDup (map sequence_number (seq 0 m)).
Proof.
  intro Hm. apply NoDup_map_NoDup_ForallPairs; [|apply seq_NoDup].
  intros a b Ha Hb. apply in_seq in Ha, Hb. unfold sequence_number.
  rewrite !Z.mod_small by lia. lia.
Qed.

Lemma payload_block_sizes (data : bytes) (i : nat) :
  (i < block_count (length data))%nat ->
  length (payload_block data i) =
    (if (S i <? block_count (length data))%nat then 1024%nat
     else (length data - 1024 * (block_count (length data) - 1))%nat)
  /\ (1 <= length (payload_block data i) <= 1024)%nat.
Proof.
  rewrite payload_block_length. unfold block_count.
  pose proof (Nat.div_mod_eq (length data + 1023) 1024) as D.
  pose proof (Nat.mod_upper_bound (length data + 1023) 1024 ltac:(lia)) as U.
  set (n := ((length data + 1023) / 1024)%nat) in *.
  set (r := ((length data + 1023) mod 1024)%nat) in *.
  intro Hi. destruct (Nat.ltb_spec (S i) n); lia.
Qed.

(** C3. For every payload and optional 12-byte header, the plan has
    [ceil(len(payload)/1024)] frames without a header and one more with a
    header; its frames carry, in order, the header (when present) and the
    consecutive 1024-byte slices of the payload, the last slice holding the
    1 to 1024 remaining bytes; the frame at position [k] has the sequence
    number [sequence_number k], which starts at 1 (the header, when present,
    has 1 and the payload goes on from 2), is incremented after each frame
    and reset to 0 once it exceeds 255, so that a plan of at most 255 frames
    repeats no number. *)
Theorem get_transfer_chunks_plan (self : TransferDataCreator) :
  (forall h, _header self = Some h -> length h = 12%nat) ->
  let blocks := block_count (length (_data self)) in
  exists plan,
    get_transfer_chunks self = Ok plan
    /\ length plan =
         (match _header self with Some _ => 1 | None => 0 end + blocks)%nat
    /\ length plan = length (plan_contents self)
    /\ (forall k content,
          nth_error (plan_contents self) k = Some content ->
          exists frame,
            nth_error plan k = Some frame
            /\ _construct_single_chunk self content (sequence_number k)
               = Ok frame)
    /\ (forall i, (i < blocks)%nat ->
          length (payload_block (_data self) i) =
            (if (S i <? blocks)%nat then 1024%nat
             else (length (_data self) - 1024 * (blocks - 1))%nat)
          /\ (1 <= length (payload_block (_data self) i) <= 1024)%nat)
    /\ sequence_number 0 = 1
    /\ (forall k, sequence_number (S k) =
                  if sequence_number k + 1 >? 0xFF then 0x0
                  else sequence_number k + 1)
    /\ ((length plan <= 255)%nat ->
        NoDup (map sequence_number (seq 0 (length plan)))).
Proof.
  intros Hheader blocks.
  assert (Tail : forall plan : list bytes,
    (forall i, (i < blocks)%nat ->
       length (payload_block (_data self) i) =
         (if (S i <? blocks)%nat then 1024%nat
          else (length (_data self) - 1024 * (blocks - 1))%nat)
       /\ (1 <= length (payload_block (_data self) i) <= 1024)%nat)
    /\ sequence_number 0 = 1
    /\ (forall k, sequence_number (S k) =
                  if sequence_number k + 1 >? 0xFF then 0x0
                  else sequence_number k + 1)
    /\ ((length plan <= 255)%nat ->
        NoDup (map sequence_number (seq 0 (length plan))))).
  { intro plan. split; [intros i Hi; now apply payload_block_sizes|].
    split; [reflexivity|]. split; [apply sequence_number_next|].
    apply sequence_numbers_distinct. }
  assert (Hblocks : length (payload_blocks (_data self)) = blocks)
    by (unfold payload_blocks; now rewrite length_map, length_seq).
  unfold get_transfer_chunks, plan_contents.
  rewrite get_data_parts_blocks.
  destruct (_header self) as [header|] eqn:Eh.
  - destruct (construct_single_chunk_ok self header 1) as
      (sb & cb & hi & lo & E & _); [rewrite (Hheader header eq_refl); lia|lia|].
    set (frame0 := _ ++ _) in E. rewrite E. cbn [rbind].
    destruct (construct_parts_ok self _ (payload_blocks_bounded (_data self))
                (1 + 1) ([] ++ [frame0]))
      as (frames & Eframes & Hlen & Hnth); [lia|].
    exists (frame0 :: frames).
    split; [exact Eframes|].
    split; [cbn [length]; rewrite Hlen, Hblocks; lia|].
    split; [cbn [length app]; now rewrite Hlen|].
    split; [|apply Tail].
    intros [|k] content Hk; cbn [app nth_error] in *.
    + injection Hk as <-. exists frame0. split; [reflexivity|exact E].
    + destruct (Hnth k content Hk) as (frame & F1 & F2).
      exists frame. split; [assumption|].
      unfold sequence_number.
      replace (Z.of_nat (S k) + 1) with (1 + 1 + Z.of_nat k) by lia.
      exact F2.
  - destruct (construct_parts_ok self _ (payload_blocks_bounded (_data self))
                1 [])
      as (frames & Eframes & Hlen & Hnth); [lia|].
    exists frames.
    split; [exact Eframes|].
    split; [rewrite Hlen, Hblocks; lia|].
    split; [cbn [app]; exact Hlen|].
    split; [|apply Tail].
    intros k content Hk. cbn [app] in Hk.
    destruct (Hnth k content Hk) as (frame & F1 & F2).
    exists frame. split; [assumption|].
    unfold sequence_number.
    replace (Z.of_nat k + 1) with (1 + Z.of_nat k) by lia.
    exact F2.
Qed.

Lemma get_transfer_chunks_plan_witness :
  exists plan,
    get_transfer_chunks scenario_B = Ok plan /\ length plan = 2%nat.
Proof.
  destruct (get_transfer_chunks_plan scenario_B) as (plan & E & L & _).
  - intros h [= <-]. reflexivity.
  - exists plan. split; [exact E|exact L].
Defined.

(** ** The session monad *)

Section SessionFacts.

Context {W : Type} (uart : SerialPort W).

Lemma bind_ok {A B : Type} (m : M W A) (k : A -> M W B) (w w1 : W)
  (a : A) (t1 : list event) :
  m w = (Ok a, w1, t1) ->
  bind m k w = (outcome (k a w1), final (k a w1), t1 ++ trace (k a w1)).
Proof.
  intro H. unfold bind. rewrite H.
  destruct (k a w1) as [[r w2] t2]. reflexivity.
Qed.

Lemma bind_raise {A B : Type} (m : M W A) (k : A -> M W B) (w w1 : W)
  (e : exception) (t1 : list event) :
  m w = (Raise e, w1, t1) -> bind m k w = (Raise e, w1, t1).
Proof. intro H. unfold bind. now rewrite H. Qed.

Lemma bind_assoc {A B C : Type} (m : M W A) (f : A -> M W B)
  (g : B -> M W C) (w : W) :
  bind (bind m f) g w = bind m (fun a => bind (f a) g) w.
Proof.
  unfold bind. destruct (m w) as [[[a|e] w1] t1]; [|reflexivity].
  destruct (f a w1) as [[[b|e] w2] t2]; [|reflexivity].
  destruct (g b w2) as [[r w3] t3]. now rewrite app_assoc.
Qed.

Lemma bind_ext {A B : Type} (m : M W A) (f g : A -> M W B) (w : W) :
  (forall a w', f a w' = g a w') -> bind m f w = bind m g w.
Proof.
  intro H. unfold bind. destruct (m w) as [[[a|e] w1] t1]; [|reflexivity].
  now rewrite H.
Qed.

(** The loop over a concatenation is the loop over the first list
    followed by the loop over the second. *)
Lemma send_chunks_app (total : Z) (sent rest : list bytes) :
  forall (index : Z) (w : W),
    send_chunks uart total (sent ++ rest) index w =
    bind (send_chunks uart total sent index)
         (fun _ => send_chunks uart total rest
                     (index + Z.of_nat (length sent))) w.
Proof.
  induction sent as [|chunk sent IH]; intros index w.
  - cbn [app send_chunks length]. unfold bind, ret.
    change (Z.of_nat 0) with 0. rewrite Z.add_0_r.
    now destruct (send_chunks uart total rest index w) as [[r w'] t].
  - replace (index + Z.of_nat (length (chunk :: sent)))
      with (index + 1 + Z.of_nat (length sent)) by (cbn [length]; lia).
    cbn [app send_chunks].
    rewrite bind_assoc. apply bind_ext. intros _ w1.
    rewrite bind_assoc. apply bind_ext. intros _ w2.
    rewrite bind_assoc. apply bind_ext. intros response w3.
    rewrite bind_assoc. apply bind_ext. intros empty w4.
    destruct (negb (bytes_eqb response ACK) || _).
    + rewrite bind_assoc. apply bind_ext. intros _ w5. reflexivity.
    + apply IH.
Qed.

(** [upload_data] cut after the frames [sent]. *)
Lemma upload_data_split (self : FirmwareUploader) (sent rest : list bytes)
  (w : W) :
  _chunks self = sent ++ rest ->
  upload_data uart self w =
  bind (session_prefix uart self sent)
       (fun _ =>
          bind (send_chunks uart (Z.of_nat (length (_chunks self))) rest
                            (1 + Z.of_nat (length sent)))
               (fun _ => send_eot uart)) w.
Proof.
  intro E. unfold upload_data, session_prefix.
  rewrite bind_assoc. apply bind_ext. intros _ w1.
  rewrite bind_assoc. apply bind_ext. intros _ w2.
  rewrite <- bind_assoc. rewrite E at 2.
  unfold bind at 1. rewrite send_chunks_app.
  destruct (bind _ _ w2) as [[[a|e] w3] t3] eqn:B;
    unfold bind at 1; rewrite B; reflexivity.
Qed.

End SessionFacts.

(** ** Comparing byte strings *)

Lemma bytes_eqb_eq (a b : bytes) : bytes_eqb a b = true <-> a = b.
Proof.
  revert b. induction a as [|x a IH]; intros [|y b]; cbn [bytes_eqb];
    try (split; [discriminate|discriminate]); [tauto|].
  rewrite andb_true_iff, IH. split.
  - intros [H ->]. apply Byte.byte_dec_bl in H. now subst.
  - intros [= -> ->]. split; [now apply Byte.byte_dec_lb|reflexivity].
Qed.

Lemma bytes_eqb_neq (a b : bytes) : bytes_eqb a b = false <-> a <> b.
Proof.
  rewrite <- bytes_eqb_eq. destruct (bytes_eqb a b); split; congruence.
Qed.

Lemma endswith_ping (b : bytes) :
  ((length b =? 0)%nat || negb (endswith b PING)) = false
  <-> b <> [] /\ last b x00 = x43.
Proof.
  destruct b as [|x b] using rev_ind.
  - cbn. split; [discriminate|intros [H _]; now elim H].
  - clear IHb. rewrite last_last, length_app. cbn [length].
    replace ((length b + 1 =? 0)%nat) with false
      by (symmetry; apply Nat.eqb_neq; lia).
    cbn [orb]. unfold endswith, PING. rewrite length_app. cbn [length].
    replace ((1 <=? length b + 1)%nat) with true
      by (symmetry; apply Nat.leb_le; lia).
    replace (length b + 1 - 1)%nat with (length b + 0)%nat by lia.
    rewrite skipn_app, Nat.add_0_r, skipn_all, Nat.sub_diag.
    cbn [andb skipn app]. rewrite negb_false_iff, bytes_eqb_eq.
    split.
    + intros [= ->]. split; [now destruct b|reflexivity].
    + intros [_ ->]. reflexivity.
Qed.

Lemma writes_app (a b : list event) : writes (a ++ b) = writes a ++ writes b.
Proof.
  induction a as [|e a IH]; [reflexivity|].
  destruct e; cbn [app writes]; now rewrite IH.
Qed.

(** ** The upload session *)

Section UploadFacts.

Context {W : Type} (uart : SerialPort W).

Lemma bind_ok_inv {A B : Type} (m : M W A) (k : A -> M W B) (w w2 : W)
  (b : B) (t : list event) :
  bind m k w = (Ok b, w2, t) ->
  exists a w1 t1 t2,
    m w = (Ok a, w1, t1) /\ k a w1 = (Ok b, w2, t2) /\ t = t1 ++ t2.
Proof.
  unfold bind. destruct (m w) as [[[a|e] w1] t1]; [|discriminate].
  destruct (k a w1) as [[r w2'] t2] eqn:K. intros [= -> -> <-].
  now exists a, w1, t1, t2.
Qed.

Lemma open_port_writes (self : FirmwareUploader) (w : W) :
  writes (trace (open_port uart self w)) = [].
Proof.
  unfold open_port, bind, call, time_sleep.
  now destruct (port_open uart (_uart_path self) w) as [[[]|e] w1].
Qed.

Lemma wait_for_ping_writes (w : W) :
  writes (trace (wait_for_ping uart w)) = [].
Proof.
  unfold wait_for_ping, bind, uart_read_all, uart_read, call, ret, raise.
  destruct (port_read_all uart w) as [[[r|]|e] w1]; [| |reflexivity].
  - now destruct ((length r =? 0)%nat || negb (endswith r PING)).
  - destruct (port_read uart w1) as [[r|e] w2]; [|reflexivity].
    now destruct ((length r =? 0)%nat || negb (endswith r PING)).
Qed.

(** One turn of the loop whose reply is accepted. *)
Lemma send_chunks_step (total : Z) (chunk : bytes) (chunks : list bytes)
  (index : Z) (w : W) :
  send_chunks uart total (chunk :: chunks) index w =
  bind (print (MsgSending index total))
    (fun _ => bind (uart_write uart chunk)
    (fun _ => bind (uart_read uart)
    (fun response => bind (uart_read_all uart)
    (fun empty =>
       if negb (bytes_eqb response ACK)
          || match empty with
             | Some e => negb (length e =? 0)%nat
             | None => false
             end
       then bind (print (MsgResponse response))
                 (fun _ => raise UnexpectedReply)
       else send_chunks uart total chunks (index + 1))))) w.
Proof. reflexivity. Qed.

(** A loop that ends normally has written exactly its chunks. *)
Lemma send_chunks_ok_writes (total : Z) (chunks : list bytes) :
  forall (index : Z) (w w1 : W) (t : list event),
    send_chunks uart total chunks index w = (Ok tt, w1, t) ->
    writes t = chunks.
Proof.
  induction chunks as [|chunk chunks IH]; intros index w w1 t.
  - cbn [send_chunks]. unfold ret. now intros [= _ <-].
  - rewrite send_chunks_step. unfold bind at 1, print.
    unfold bind at 1, uart_write, call.
    destruct (port_write uart chunk w) as [[[]|e] w2]; [|discriminate].
    unfold bind at 1, uart_read, call.
    destruct (port_read uart w2) as [[response|e] w3]; [|discriminate].
    unfold bind at 1, uart_read_all, call.
    destruct (port_read_all uart w3) as [[empty|e] w4]; [|discriminate].
    destruct (negb (bytes_eqb response ACK) || _).
    + unfold bind, print, raise. discriminate.
    + destruct (send_chunks uart total chunks (index + 1) w4)
        as [[[[]|e] w5] t5] eqn:S; [|discriminate].
      intros [= _ <-]. cbn [app writes]. f_equal. exact (IH _ _ _ _ S).
Qed.

Lemma session_prefix_writes (self : FirmwareUploader) (sent : list bytes)
  (w w1 : W) (t1 : list event) :
  session_prefix uart self sent w = (Ok tt, w1, t1) -> writes t1 = sent.
Proof.
  unfold session_prefix. intro H.
  apply bind_ok_inv in H. destruct H as ([] & wa & ta & tb & Ha & Hb & ->).
  apply bind_ok_inv in Hb. destruct Hb as ([] & wb & tc & td & Hb & Hc & ->).
  rewrite !writes_app.
  pose proof (open_port_writes self w) as O. rewrite Ha in O.
  pose proof (wait_for_ping_writes wa) as P. rewrite Hb in P.
  cbn [trace snd] in O, P. rewrite O, P.
  exact (send_chunks_ok_writes _ _ _ _ _ _ Hc).
Qed.

(** A turn of the loop whose reply is not a lone ACK. *)
Lemma send_chunks_rejected (total : Z) (chunk : bytes)
  (chunks : list bytes) (index : Z) (w w2 w3 w4 : W) (response : bytes)
  (empty : option bytes) :
  port_write uart chunk w = (Ok tt, w2) ->
  port_read uart w2 = (Ok response, w3) ->
  port_read_all uart w3 = (Ok empty, w4) ->
  (response <> ACK \/ exists extra, empty = Some extra /\ extra <> []) ->
  send_chunks uart total (chunk :: chunks) index w =
  (Raise UnexpectedReply, w4,
   [EvPrint (MsgSending index total); EvWrite chunk; EvRead; EvReadAll;
    EvPrint (MsgResponse response)]).
Proof.
  intros Hw Hr Ha Hbad. rewrite send_chunks_step.
  unfold bind, print, uart_write, uart_read, uart_read_all, call, raise.
  rewrite Hw, Hr, Ha.
  replace (negb (bytes_eqb response ACK) || _) with true; [reflexivity|].
  symmetry. apply orb_true_iff. destruct Hbad as [N|(extra & -> & N)].
  - left. apply negb_true_iff. now apply bytes_eqb_neq.
  - right. apply negb_true_iff, Nat.eqb_neq. now destruct extra.
Qed.

(** The end of the session once every frame has been acknowledged. *)
Lemma upload_data_eot (self : FirmwareUploader) (w w1 w2 w3 : W)
  (t1 : list event) (response : bytes) :
  session_prefix uart self (_chunks self) w = (Ok tt, w1, t1) ->
  port_write uart EOT w1 = (Ok tt, w2) ->
  port_read uart w2 = (Ok response, w3) ->
  upload_data uart self w =
  if bytes_eqb response ACK
  then (Ok tt, w3, t1 ++ [EvWrite EOT; EvRead; EvPrint MsgFinished])
  else (Raise NoFinalAck, w3, t1 ++ [EvWrite EOT; EvRead]).
Proof.
  intros Hp Hw Hr.
  rewrite (upload_data_split uart self (_chunks self) [])
    by (now rewrite app_nil_r).
  rewrite (bind_ok _ _ _ _ _ _ Hp). cbn [send_chunks].
  unfold send_eot, uart_write, uart_read, call, print, raise, ret, bind.
  rewrite Hw, Hr.
  now destruct (bytes_eqb response ACK).
Qed.

End UploadFacts.

(** C4. In the sending state, when the reply read for a frame is not the
    ACK byte 0x06, or bytes are still pending after it, the session raises
    the "Didn't receive expected ACK" error right away: the frames written
    are those before it and that frame, whose index is the number of frames
    acknowledged before; nothing is written afterwards and no frame is sent
    twice.  A NAK reply to the first frame is the case [sent = []]. *)
Theorem unexpected_reply_is_fatal {W : Type} (uart : SerialPort W)
  (self : FirmwareUploader) (sent : list bytes) (chunk : bytes)
  (rest : list bytes) (w w1 w2 w3 w4 : W) (t1 : list event)
  (response : bytes) (empty : option bytes) :
  _chunks self = sent ++ chunk :: rest ->
  session_prefix uart self sent w = (Ok tt, w1, t1) ->
  port_write uart chunk w1 = (Ok tt, w2) ->
  port_read uart w2 = (Ok response, w3) ->
  port_read_all uart w3 = (Ok empty, w4) ->
  (response <> ACK \/ exists extra, empty = Some extra /\ extra <> []) ->
  upload_data uart self w =
    (Raise UnexpectedReply, w4,
     t1 ++ [EvPrint (MsgSending (1 + Z.of_nat (length sent))
                                (Z.of_nat (length (_chunks self))));
            EvWrite chunk; EvRead; EvReadAll;
            EvPrint (MsgResponse response)])
  /\ writes (trace (upload_data uart self w)) = sent ++ [chunk]
  /\ nth_error (_chunks self) (length sent) = Some chunk.
Proof.
  intros Hc Hp Hw Hr Ha Hbad.
  assert (E : upload_data uart self w =
    (Raise UnexpectedReply, w4,
     t1 ++ [EvPrint (MsgSending (1 + Z.of_nat (length sent))
                                (Z.of_nat (length (_chunks self))));
            EvWrite chunk; EvRead; EvReadAll;
            EvPrint (MsgResponse response)])).
  { rewrite (upload_data_split uart self sent (chunk :: rest) w Hc).
    rewrite (bind_ok _ _ _ _ _ _ Hp).
    rewrite (bind_raise _ _ _ _ _ _
               (send_chunks_rejected uart _ chunk rest _ _ _ _ _ _ _
                  Hw Hr Ha Hbad)).
    reflexivity. }
  split; [exact E|]. split.
  - rewrite E. cbn [trace snd]. rewrite writes_app.
    rewrite (session_prefix_writes uart self sent w w1 t1 Hp). reflexivity.
  - rewrite Hc, nth_error_app2, Nat.sub_diag by lia. reflexivity.
Qed.

Lemma unexpected_reply_is_fatal_witness :
  upload_data fake_port demo_uploader receiver_nak_first =
    (Raise UnexpectedReply, mkFakeUart [] [],
     [EvOpen "/dev/ttyACM0"; EvSleep 3; EvReadAll]
       ++ [EvPrint (MsgSending (1 + Z.of_nat (length (@nil bytes)))
                               (Z.of_nat (length (_chunks demo_uploader))));
           EvWrite [x01; x01; xfe; x41]; EvRead; EvReadAll;
           EvPrint (MsgResponse NAK)])
  /\ writes (trace (upload_data fake_port demo_uploader receiver_nak_first))
     = [] ++ [[x01; x01; xfe; x41]]
  /\ nth_error (_chunks demo_uploader) (length (@nil bytes))
     = Some [x01; x01; xfe; x41].
Proof.
  apply (unexpected_reply_is_fatal fake_port demo_uploader []
           [x01; x01; xfe; x41] [[x01; x02; xfd; x42]]
           receiver_nak_first (mkFakeUart [] [NAK]) (mkFakeUart NAK [])
           (mkFakeUart [] []) (mkFakeUart [] [])
           [EvOpen "/dev/ttyACM0"; EvSleep 3; EvReadAll] NAK (Some []));
    try reflexivity.
  left. discriminate.
Defined.

(** C6. With the port open and the reads answered, the handshake succeeds
    exactly when the data received (what [read_all] flushed, or what [read]
    returned when [read_all] gave nothing) is non-empty and ends with the
    ready marker 0x43; otherwise the session raises the "Didn't receive
    expected 'C' ping" error and nothing has been written to the port. *)
Theorem handshake_requires_ping {W : Type} (uart : SerialPort W)
  (self : FirmwareUploader) (w w1 w2 : W) (received : bytes) :
  port_open uart (_uart_path self) w = (Ok tt, w1) ->
  (port_read_all uart (port_sleep uart 3 w1) = (Ok (Some received), w2)
   \/ exists w',
        port_read_all uart (port_sleep uart 3 w1) = (Ok None, w')
        /\ port_read uart w' = (Ok received, w2)) ->
  let ready := received <> [] /\ last received x00 = x43 in
  (outcome (wait_for_ping uart (port_sleep uart 3 w1)) = Ok tt <-> ready)
  /\ (ready ->
      exists t, session_prefix uart self [] w = (Ok tt, w2, t)
                /\ writes t = [])
  /\ (~ ready ->
      outcome (upload_data uart self w) = Raise NoReadyMarker
      /\ writes (trace (upload_data uart self w)) = []).
Proof.
  intros Ho Hread ready.
  pose proof (endswith_ping received) as P. fold ready in P.
  assert (Hwait : exists t,
    wait_for_ping uart (port_sleep uart 3 w1) =
      (if (length received =? 0)%nat || negb (endswith received PING)
       then Raise NoReadyMarker else Ok tt, w2, t)
    /\ writes t = []).
  { unfold wait_for_ping, uart_read_all, uart_read, call, ret, raise, bind.
    destruct Hread as [Ha|(w' & Ha & Hr)]; rewrite Ha; [|rewrite Hr];
      destruct ((length received =? 0)%nat || negb (endswith received PING));
      eexists; split; reflexivity. }
  destruct Hwait as (t & Hwait & Ht).
  assert (Hopen : open_port uart self w =
                  (Ok tt, port_sleep uart 3 w1,
                   [EvOpen (_uart_path self); EvSleep 3])).
  { unfold open_port, bind, call, time_sleep. now rewrite Ho. }
  split; [|split].
  - rewrite Hwait. unfold outcome. cbn [fst].
    destruct ((length received =? 0)%nat || negb (endswith received PING)).
    + split; [discriminate|]. intro R. apply P in R. discriminate.
    + split; [intros _; now apply P|reflexivity].
  - intro R. apply P in R. rewrite R in Hwait.
    exists ([EvOpen (_uart_path self); EvSleep 3] ++ t ++ []).
    split.
    + unfold session_prefix. rewrite (bind_ok _ _ _ _ _ _ Hopen).
      rewrite (bind_ok _ _ _ _ _ _ Hwait). reflexivity.
    + rewrite !writes_app, Ht. reflexivity.
  - intro N.
    assert (R : (length received =? 0)%nat || negb (endswith received PING)
                = true).
    { destruct (_ || _); [reflexivity|]. elim N. now apply P. }
    rewrite R in Hwait. unfold upload_data.
    rewrite (bind_ok _ _ _ _ _ _ Hopen).
    rewrite (bind_raise _ _ _ _ _ _ Hwait).
    split; [reflexivity|]. cbn [trace snd]. rewrite writes_app, Ht.
    reflexivity.
Qed.

Lemma handshake_requires_ping_witness :
  let ready := [x0a; x43] <> [] /\ last [x0a; x43] x00 = x43 in
  (outcome (wait_for_ping fake_port
              (port_sleep fake_port 3 receiver_stray_after_eot)) = Ok tt
   <-> ready)
  /\ (ready ->
      exists t, session_prefix fake_port demo_uploader []
                  receiver_stray_after_eot
                = (Ok tt, mkFakeUart [] [ACK; ACK; ACK ++ [x15]], t)
                /\ writes t = [])
  /\ (~ ready ->
      outcome (upload_data fake_port demo_uploader receiver_stray_after_eot)
        = Raise NoReadyMarker
      /\ writes (trace (upload_data fake_port demo_uploader
                          receiver_stray_after_eot)) = []).
Proof.
  apply (handshake_requires_ping fake_port demo_uploader
           receiver_stray_after_eot receiver_stray_after_eot
           (mkFakeUart [] [ACK; ACK; ACK ++ [x15]]) [x0a; x43]).
  - reflexivity.
  - left. reflexivity.
Defined.

(** C7, as stated, fails: the acknowledgement of the end-of-transmission
    byte is one [read()] compared with ACK; nothing looks at what is still
    buffered.  Here the receiver answers 0x04 with 0x06 0x15: the session
    completes and the byte 0x15 is left unread. *)
Lemma stray_byte_after_eot_ack_completes :
  upload_data fake_port demo_uploader receiver_stray_after_eot =
    (Ok tt, mkFakeUart [x15] [],
     [EvOpen "/dev/ttyACM0"; EvSleep 3; EvReadAll;
      EvPrint (MsgSending 1 2); EvWrite [x01; x01; xfe; x41];
      EvRead; EvReadAll;
      EvPrint (MsgSending 2 2); EvWrite [x01; x02; xfd; x42];
      EvRead; EvReadAll;
      EvWrite EOT; EvRead; EvPrint MsgFinished]).
Proof. reflexivity. Qed.

(** C7, amended. After the last frame is acknowledged the session writes
    the single byte 0x04 and reads one reply: it completes when that reply
    is the byte 0x06 and raises the "No ACK received for EOT message" error
    otherwise.  Unlike after a data frame, the port is not asked for pending
    bytes: the session ends in the state the one read left. *)
Theorem eot_acknowledgement {W : Type} (uart : SerialPort W)
  (self : FirmwareUploader) (w w1 w2 w3 : W) (t1 : list event)
  (response : bytes) :
  session_prefix uart self (_chunks self) w = (Ok tt, w1, t1) ->
  port_write uart EOT w1 = (Ok tt, w2) ->
  port_read uart w2 = (Ok response, w3) ->
  (response = ACK ->
   upload_data uart self w =
     (Ok tt, w3, t1 ++ [EvWrite EOT; EvRead; EvPrint MsgFinished]))
  /\ (response <> ACK ->
      upload_data uart self w =
        (Raise NoFinalAck, w3, t1 ++ [EvWrite EOT; EvRead])).
Proof.
  intros Hp Hw Hr.
  pose proof (upload_data_eot uart self w w1 w2 w3 t1 response Hp Hw Hr) as E.
  split; intro H.
  - apply bytes_eqb_eq in H. now rewrite H in E.
  - apply bytes_eqb_neq in H. now rewrite H in E.
Qed.

Lemma eot_acknowledgement_witness :
  (ACK = ACK ->
   upload_data fake_port demo_uploader receiver_stray_after_eot =
     (Ok tt, mkFakeUart [x15] [],
      [EvOpen "/dev/ttyACM0"; EvSleep 3; EvReadAll;
       EvPrint (MsgSending 1 2); EvWrite [x01; x01; xfe; x41];
       EvRead; EvReadAll;
       EvPrint (MsgSending 2 2); EvWrite [x01; x02; xfd; x42];
       EvRead; EvReadAll]
        ++ [EvWrite EOT; EvRead; EvPrint MsgFinished]))
  /\ (ACK <> ACK ->
      upload_data fake_port demo_uploader receiver_stray_after_eot =
        (Raise NoFinalAck, mkFakeUart [x15] [],
         [EvOpen "/dev/ttyACM0"; EvSleep 3; EvReadAll;
          EvPrint (MsgSending 1 2); EvWrite [x01; x01; xfe; x41];
          EvRead; EvReadAll;
          EvPrint (MsgSending 2 2); EvWrite [x01; x02; xfd; x42];
          EvRead; EvReadAll]
           ++ [EvWrite EOT; EvRead])).
Proof.
  apply (eot_acknowledgement fake_port demo_uploader
           receiver_stray_after_eot
           (mkFakeUart [] [ACK ++ [x15]]) (mkFakeUart [x06; x15] []));
    reflexivity.
Defined.

(** C5, as stated, fails: [main] raises an [OSError] for an empty file
    before any plan is made or any port is opened. *)
Lemma main_rejects_empty_file :
  main fake_port (mkNamespace "zephyr.bin" "/dev/ttyACM0" None false) []
       receiver_ack_once
  = (Raise EmptyFile, receiver_ack_once, [EvPrint MsgWarning]).
Proof. reflexivity. Qed.

(** C5, amended. An empty payload with no header yields a zero-frame plan,
    and a session over a zero-frame plan performs the handshake, writes the
    end-of-transmission byte as its first write and completes when 0x06 is
    read; the transfer program itself, however, rejects an empty file with
    an error before planning. *)
Theorem empty_payload_session {W : Type} (uart : SerialPort W)
  (path : string) (args : Namespace) (w w1 w2 w3 w0 : W)
  (t1 : list event) :
  let self := mkFirmwareUploader [] path in
  session_prefix uart self [] w = (Ok tt, w1, t1) ->
  port_write uart EOT w1 = (Ok tt, w2) ->
  port_read uart w2 = (Ok ACK, w3) ->
  get_transfer_chunks (TransferDataCreator_init [] default_polynomial) = Ok []
  /\ upload_data uart self w =
       (Ok tt, w3, t1 ++ [EvWrite EOT; EvRead; EvPrint MsgFinished])
  /\ writes t1 = []
  /\ main uart args [] w0 = (Raise EmptyFile, w0, [EvPrint MsgWarning]).
Proof.
  intros self Hp Hw Hr.
  split; [reflexivity|]. split; [|split].
  - exact (upload_data_eot uart self w w1 w2 w3 t1 ACK Hp Hw Hr).
  - exact (session_prefix_writes uart self [] w w1 t1 Hp).
  - reflexivity.
Qed.

Lemma empty_payload_session_witness :
  get_transfer_chunks (TransferDataCreator_init [] default_polynomial) = Ok []
  /\ upload_data fake_port (mkFirmwareUploader [] "/dev/ttyACM0")
                 receiver_ack_once =
       (Ok tt, mkFakeUart [] [],
        [EvOpen "/dev/ttyACM0"; EvSleep 3; EvReadAll]
          ++ [EvWrite EOT; EvRead; EvPrint MsgFinished])
  /\ writes [EvOpen "/dev/ttyACM0"; EvSleep 3; EvReadAll] = []
  /\ main fake_port (mkNamespace "zephyr.bin" "/dev/ttyACM0" None false) []
          receiver_ack_once
     = (Raise EmptyFile, receiver_ack_once, [EvPrint MsgWarning]).
Proof.
  apply (empty_payload_session fake_port "/dev/ttyACM0"
           (mkNamespace "zephyr.bin" "/dev/ttyACM0" None false)
           receiver_ack_once (mkFakeUart [] [ACK]) (mkFakeUart ACK [])
           (mkFakeUart [] []) receiver_ack_once
           [EvOpen "/dev/ttyACM0"; EvSleep 3; EvReadAll]);
    reflexivity.
Defined.

(** ** Progress reports *)

Lemma send_chunks_starts {W : Type} (uart : SerialPort W) (total : Z)
  (chunk : bytes) (chunks : list bytes) (index : Z) (k : unit -> M W unit)
  (w : W) :
  exists t,
    trace (bind (send_chunks uart total (chunk :: chunks) index) k w) =
    EvPrint (MsgSending index total) :: EvWrite chunk :: t.
Proof.
  unfold bind at 1. rewrite send_chunks_step.
  unfold bind at 1, print. unfold bind at 1, uart_write, call.
  destruct (port_write uart chunk w) as [[[]|e] w2].
  - match goal with
    | |- context [bind ?m ?f w2] => destruct (bind m f w2) as [[[[]|e] w3] t3]
    end.
    + destruct (k tt w3) as [[r w4] t4]. eexists. reflexivity.
    + eexists. reflexivity.
  - eexists. reflexivity.
Qed.

(** C8, as stated, fails: the report for a frame is printed before the
    frame is written.  Here the first frame is answered with NAK, and its
    report "Sending chunk 1 / 2" has been printed all the same. *)
Lemma progress_reported_for_rejected_frame :
  upload_data fake_port demo_uploader receiver_nak_first =
    (Raise UnexpectedReply, mkFakeUart [] [],
     [EvOpen "/dev/ttyACM0"; EvSleep 3; EvReadAll;
      EvPrint (MsgSending 1 2); EvWrite [x01; x01; xfe; x41];
      EvRead; EvReadAll; EvPrint (MsgResponse NAK)]).
Proof. reflexivity. Qed.

(** C8, amended. For every frame index, once the frames before it have
    been acknowledged, the progress report for that frame (its 1-based index
    out of the total) is emitted immediately before the frame is written to
    the port, hence before its acknowledgement is read and whatever that
    acknowledgement turns out to be. *)
Theorem progress_report_precedes_write {W : Type} (uart : SerialPort W)
  (self : FirmwareUploader) (sent : list bytes) (chunk : bytes)
  (rest : list bytes) (w w1 : W) (t1 : list event) :
  _chunks self = sent ++ chunk :: rest ->
  session_prefix uart self sent w = (Ok tt, w1, t1) ->
  writes t1 = sent
  /\ exists t2,
       trace (upload_data uart self w) =
       t1 ++ EvPrint (MsgSending (1 + Z.of_nat (length sent))
                                 (Z.of_nat (length (_chunks self))))
          :: EvWrite chunk :: t2.
Proof.
  intros Hc Hp.
  split; [exact (session_prefix_writes uart self sent w w1 t1 Hp)|].
  rewrite (upload_data_split uart self sent (chunk :: rest) w Hc).
  rewrite (bind_ok _ _ _ _ _ _ Hp). cbn [trace snd].
  destruct (send_chunks_starts uart (Z.of_nat (length (_chunks self))) chunk
              rest (1 + Z.of_nat (length sent)) (fun _ => send_eot uart) w1)
    as (t2 & E).
  exists t2. now rewrite E.
Qed.

Lemma progress_report_precedes_write_witness :
  writes [EvOpen "/dev/ttyACM0"; EvSleep 3; EvReadAll] = []
  /\ exists t2,
       trace (upload_data fake_port demo_uploader receiver_nak_first) =
       [EvOpen "/dev/ttyACM0"; EvSleep 3; EvReadAll]
         ++ EvPrint (MsgSending (1 + Z.of_nat (length (@nil bytes)))
                                (Z.of_nat (length (_chunks demo_uploader))))
         :: EvWrite [x01; x01; xfe; x41] :: t2.
Proof.
  apply (progress_report_precedes_write fake_port demo_uploader []
           [x01; x01; xfe; x41] [[x01; x02; xfd; x42]]
           receiver_nak_first (mkFakeUart [] [NAK])
           [EvOpen "/dev/ttyACM0"; EvSleep 3; EvReadAll]);
    reflexivity.
Defined.

(** ** The life cycle of the port *)

Section Lifecycle.

Context {W : Type} (uart : SerialPort W).

Lemma bind_in_use {A B : Type} (m : M W A) (k : A -> M W B) (w : W) :
  in_use (trace (m w)) ->
  (forall a w', in_use (trace (k a w'))) ->
  in_use (trace (bind m k w)).
Proof.
  intros Hm Hk. unfold bind.
  destruct (m w) as [[[a|e] w1] t1]; [|exact Hm].
  specialize (Hk a w1). destruct (k a w1) as [[r w2] t2].
  apply Forall_app. split; assumption.
Qed.

Lemma call_in_use {A : Type} (ev : event) (f : W -> result A * W) (w : W) :
  is_port_lifecycle ev = false -> in_use (trace (call ev f w)).
Proof.
  intro H. unfold call. destruct (f w) as [r w1].
  repeat constructor. exact H.
Qed.

Lemma wait_for_ping_in_use (w : W) : in_use (trace (wait_for_ping uart w)).
Proof.
  unfold wait_for_ping.
  apply bind_in_use; [now apply call_in_use|]. intros r w1.
  apply bind_in_use.
  - destruct r; [constructor|now apply call_in_use].
  - intros r' w2. destruct (_ || _); constructor.
Qed.

Lemma send_chunks_in_use (total : Z) (chunks : list bytes) :
  forall (index : Z) (w : W),
    in_use (trace (send_chunks uart total chunks index w)).
Proof.
  induction chunks as [|chunk chunks IH]; intros index w; [constructor|].
  rewrite send_chunks_step.
  apply bind_in_use; [repeat constructor|]. intros _ w1.
  apply bind_in_use; [now apply call_in_use|]. intros _ w2.
  apply bind_in_use; [now apply call_in_use|]. intros response w3.
  apply bind_in_use; [now apply call_in_use|]. intros empty w4.
  destruct (_ || _); [|apply IH].
  apply bind_in_use; [repeat constructor|]. intros _ w5. constructor.
Qed.

Lemma send_eot_in_use (w : W) : in_use (trace (send_eot uart w)).
Proof.
  unfold send_eot.
  apply bind_in_use; [now apply call_in_use|]. intros _ w1.
  apply bind_in_use; [now apply call_in_use|]. intros response w2.
  destruct (negb _); repeat constructor.
Qed.

End Lifecycle.

(** C9, as stated, fails: [upload_data] never closes the port.  Here the
    session completes, and its calls on the port are an open, the reads and
    the write: no close. *)
Lemma completed_session_leaves_port_open :
  upload_data fake_port empty_uploader receiver_ack_once =
    (Ok tt, mkFakeUart [] [],
     [EvOpen "/dev/ttyACM0"; EvSleep 3; EvReadAll;
      EvWrite EOT; EvRead; EvPrint MsgFinished])
  /\ ~ In EvClose
        (trace (upload_data fake_port empty_uploader receiver_ack_once)).
Proof.
  split; [reflexivity|].
  cbn. intuition discriminate.
Qed.

(** C9, amended. The port is opened exactly once per session, as the first
    action and so before the handshake; the session itself never closes it,
    on no exit path: neither when it completes, nor when it fails, nor when
    a call on the port raises. *)
Theorem port_opened_once_never_closed {W : Type} (uart : SerialPort W)
  (self : FirmwareUploader) (w : W) :
  exists t,
    trace (upload_data uart self w) = EvOpen (_uart_path self) :: t
    /\ Forall (fun e => is_port_lifecycle e = false) t.
Proof.
  unfold upload_data, open_port.
  rewrite bind_assoc. unfold bind at 1, call.
  destruct (port_open uart (_uart_path self) w) as [[[]|e] w1].
  - match goal with
    | |- context [bind ?m ?f w1] =>
        pose proof (bind_in_use m f w1) as H;
        destruct (bind m f w1) as [[r w2] t2]
    end.
    exists t2. split; [reflexivity|]. apply H.
    + repeat constructor.
    + intros _ w'. apply bind_in_use; [apply wait_for_ping_in_use|].
      intros _ w''. apply bind_in_use; [apply send_chunks_in_use|].
      intros _ w3. apply send_eot_in_use.
  - exists []. split; [reflexivity|constructor].
Qed.

(** ** The flash header *)

Lemma byte_val_byte_of_Z (n : Z) : byte_val (byte_of_Z n) = n mod 256.
Proof.
  unfold byte_of_Z, byte_val.
  pose proof (Z.mod_pos_bound n 256 ltac:(lia)) as B.
  destruct (of_N_Some (Z.to_N (n mod 256))) as [b Hb]; [lia|].
  rewrite Hb. apply Byte.to_of_N in Hb. rewrite Hb. lia.
Qed.

Lemma pack_L_inv (n : Z) (b : bytes) :
  pack_L n = Ok b ->
  0 <= n <= 0xFFFFFFFF
  /\ b = [byte_of_Z (Z.shiftr n 24); byte_of_Z (Z.shiftr n 16);
          byte_of_Z (Z.shiftr n 8); byte_of_Z n]
  /\ int_from_bytes_big b = n.
Proof.
  unfold pack_L.
  destruct ((0 <=? n) && (n <=? 0xFFFFFFFF)) eqn:R; [|discriminate].
  apply andb_true_iff in R. destruct R as [R1%Z.leb_le R2%Z.leb_le].
  intros [= <-]. split; [lia|]. split; [reflexivity|].
  unfold int_from_bytes_big. cbn [fold_left].
  rewrite !byte_val_byte_of_Z, !Z.shiftr_div_pow2 by lia.
  change (2 ^ 24) with 16777216. change (2 ^ 16) with 65536.
  change (2 ^ 8) with 256.
  Z.to_euclidean_division_equations. lia.
Qed.

(** C10. Whenever the transfer tool includes a flash header, the header is
    12 bytes, three big-endian 32-bit fields: the flash offset given by the
    caller, the byte length of the whole payload being sent, and flags
    whose bit 0 is set exactly when verification after writing was switched
    off and whose other bits are zero. *)
Theorem flash_header_layout (args : Namespace) (data : bytes)
  (creator : TransferDataCreator) (header : bytes) :
  main_creator args data = Ok creator ->
  _header creator = Some header ->
  exists offset,
    flash_offset args = Some offset
    /\ _data creator = data
    /\ length header = 12%nat
    /\ int_from_bytes_big (firstn 4 header) = offset
    /\ int_from_bytes_big (firstn 4 (skipn 4 header))
       = Z.of_nat (length data)
    /\ Z.testbit (int_from_bytes_big (skipn 8 header)) 0 = no_verify args
    /\ (forall i, 0 < i ->
          Z.testbit (int_from_bytes_big (skipn 8 header)) i = false).
Proof.
  unfold main_creator. cbv zeta.
  destruct (length data =? 0)%nat; [discriminate|].
  destruct (flash_offset args) as [offset|];
    [|intros H1 H2; inversion H1; subst; discriminate].
  unfold add_header, struct_pack_LLL, TransferDataCreator_init.
  destruct (pack_L offset) as [a|e] eqn:Ea; [|discriminate].
  destruct (pack_L (Z.of_nat (length data))) as [b|e] eqn:Eb; [|discriminate].
  destruct (pack_L (if no_verify args then _ else _)) as [c|e] eqn:Ec;
    [|discriminate].
  cbn [rbind]. intros H1 H2. inversion H1. subst.
  cbn [_header _data] in *. inversion H2. subst. clear H1 H2.
  apply pack_L_inv in Ea, Eb, Ec.
  destruct Ea as (_ & Sa & Va), Eb as (_ & Sb & Vb), Ec as (_ & Sc & Vc).
  exists offset. split; [reflexivity|]. split; [reflexivity|].
  assert (F1 : firstn 4 (a ++ b ++ c) = a) by (rewrite Sa; reflexivity).
  assert (F2 : firstn 4 (skipn 4 (a ++ b ++ c)) = b)
    by (rewrite Sa, Sb; reflexivity).
  assert (F3 : skipn 8 (a ++ b ++ c) = c)
    by (rewrite Sa, Sb; reflexivity).
  rewrite F1, F2, F3, Va, Vb, Vc.
  split; [rewrite Sa, Sb, Sc; reflexivity|].
  split; [reflexivity|]. split; [reflexivity|].
  destruct (no_verify args); split; try reflexivity; intros i Hi.
  - change (Z.lor 0 NO_VERIFICATION) with (2 ^ 0).
    apply Z.pow2_bits_false. lia.
  - apply Z.bits_0.
Qed.

Lemma flash_header_layout_witness :
  exists offset,
    flash_offset flash_args = Some offset
    /\ _data scenario_B_no_verify = repeat x07 50
    /\ length scenario_B_no_verify_header = 12%nat
    /\ int_from_bytes_big (firstn 4 scenario_B_no_verify_header) = offset
    /\ int_from_bytes_big (firstn 4 (skipn 4 scenario_B_no_verify_header))
       = Z.of_nat (length (repeat x07 50))
    /\ Z.testbit (int_from_bytes_big (skipn 8 scenario_B_no_verify_header)) 0
       = no_verify flash_args
    /\ (forall i, 0 < i ->
          Z.testbit (int_from_bytes_big
                       (skipn 8 scenario_B_no_verify_header)) i = false).
Proof.
  apply (flash_header_layout flash_args (repeat x07 50)
           scenario_B_no_verify scenario_B_no_verify_header);
    reflexivity.
Defined.

(** * Further properties of the sender *)

(** ** The checksum: chaining, bounds and the receiver's test *)

(** The checksum of a concatenation is the checksum of the second part
    started from the checksum of the first: this is what the parameter
    [initial_crc] of [calc_crc16] is for. *)
Theorem calc_crc16_chains (self : TransferDataCreator) (a b : bytes)
  (initial : Z) :
  calc_crc16 self (a ++ b) initial
  = calc_crc16 self b (calc_crc16 self a initial).
Proof.
  unfold calc_crc16. revert initial.
  induction a as [|x a IH]; intro initial; [reflexivity|].
  rewrite <- app_comm_cons, !fold_left_cons. apply IH.
Qed.

Lemma calc_crc16_single_byte_masked (self : TransferDataCreator)
  (byte crc : Z) :
  0 <= _calc_crc16_single_byte self byte crc < 2 ^ 16.
Proof.
  unfold _calc_crc16_single_byte. change 0xFFFF with (Z.ones 16).
  rewrite Z.land_ones by lia. apply Z.mod_pos_bound. lia.
Qed.

(** Whatever the polynomial and the initial value, also outside 16 bits,
    the checksum of a non-empty byte string fits in 16 bits; the checksum of
    the empty string is the initial value as given. *)
Theorem calc_crc16_fits_16_bits (self : TransferDataCreator) (data : bytes)
  (initial : Z) :
  calc_crc16 self [] initial = initial
  /\ (data <> [] -> 0 <= calc_crc16 self data initial < 2 ^ 16).
Proof.
  split; [reflexivity|]. intro Hne.
  destruct data as [|x data] using rev_ind; [now elim Hne|].
  clear IHdata Hne. unfold calc_crc16. rewrite fold_left_app.
  set (c := fold_left _ data initial).
  rewrite fold_left_cons. apply calc_crc16_single_byte_masked.
Qed.

Lemma calc_crc16_fits_16_bits_witness :
  0 <= calc_crc16 (TransferDataCreator_init [] 0x11021) [x41] (-7) < 2 ^ 16.
Proof.
  apply (calc_crc16_fits_16_bits (TransferDataCreator_init [] 0x11021)
           [x41] (-7)).
  discriminate.
Defined.

Section CrcResidue.

Variable polynomial : Z.

Lemma crc16_classic_round_small (c : Z) :
  0 <= c < 2 ^ 15 -> crc16_classic_round polynomial c = 2 * c.
Proof.
  intro H. unfold crc16_classic_round.
  assert (T : Z.testbit c 15 = false).
  { destruct (Z.eq_dec c 0) as [->|]; [apply Z.bits_0|].
    apply Z.bits_above_log2; [lia|]. apply Z.log2_lt_pow2; lia. }
  rewrite T, Z.shiftl_mul_pow2 by lia.
  rewrite Z.mod_small; lia.
Qed.

Lemma crc16_classic_iter_small (k : nat) (c : Z) :
  (k <= 8)%nat -> 0 <= c < 2 ^ 8 ->
  Nat.iter k (crc16_classic_round polynomial) c = c * 2 ^ Z.of_nat k.
Proof.
  intros Hk Hc. induction k as [|k IH].
  - simpl. lia.
  - rewrite Nat.iter_succ, IH by lia.
    assert (0 < 2 ^ Z.of_nat k <= 2 ^ 7)
      by (split; [apply Z.pow_pos_nonneg|apply Z.pow_le_mono_r]; lia).
    rewrite crc16_classic_round_small by nia.
    rewrite Nat2Z.inj_succ, Z.pow_succ_r by lia. lia.
Qed.

Lemma lxor_high_byte (c : Z) :
  Z.lxor c (Z.shiftl (c / 2 ^ 8) 8) = c mod 2 ^ 8.
Proof.
  apply Z.bits_inj'. intros m Hm. rewrite Z.lxor_spec.
  destruct (Z.lt_ge_cases m 8).
  - rewrite Z.shiftl_spec_low, Z.mod_pow2_bits_low by lia.
    apply xorb_false_r.
  - rewrite Z.shiftl_spec, Z.div_pow2_bits, Z.mod_pow2_bits_high by lia.
    replace (m - 8 + 8) with m by lia. apply xorb_nilpotent.
Qed.

(** Feeding a register its own high byte leaves the low byte, moved up. *)
Lemma crc16_classic_byte_high (c : Z) :
  crc16_classic_byte polynomial (c / 2 ^ 8) c = c mod 2 ^ 8 * 2 ^ 8.
Proof.
  unfold crc16_classic_byte. rewrite lxor_high_byte.
  rewrite crc16_classic_iter_small; [reflexivity|lia|].
  apply Z.mod_pos_bound. lia.
Qed.

(** Feeding it then that low byte clears it. *)
Lemma crc16_classic_byte_low (l : Z) :
  crc16_classic_byte polynomial l (l * 2 ^ 8) = 0.
Proof.
  unfold crc16_classic_byte.
  rewrite Z.shiftl_mul_pow2, Z.lxor_nilpotent by lia.
  rewrite (crc16_classic_iter_small 8 0); lia.
Qed.

End CrcResidue.

Lemma crc_bytes_of (crc : Z) :
  0 <= crc < 2 ^ 16 ->
  Z.land (Z.shiftr crc 8) 0xFF = crc / 2 ^ 8
  /\ Z.land crc 0xFF = crc mod 2 ^ 8.
Proof.
  intro H. change 0xFF with (Z.ones 8).
  rewrite !Z.land_ones, Z.shiftr_div_pow2 by lia.
  split; [|reflexivity]. apply Z.mod_small.
  change (2 ^ 16) with (2 ^ 8 * 2 ^ 8) in H.
  split; [apply Z.div_pos; lia|apply Z.div_lt_upper_bound; lia].
Qed.

Lemma calc_crc16_residue_zero (self : TransferDataCreator) (data : bytes)
  (initial : Z) (hi lo : byte) :
  0 <= initial < 2 ^ 16 ->
  byte_val hi = Z.land (Z.shiftr (calc_crc16 self data initial) 8) 0xFF ->
  byte_val lo = Z.land (calc_crc16 self data initial) 0xFF ->
  calc_crc16 self (data ++ [hi; lo]) initial = 0.
Proof.
  intros Hi Hhi Hlo.
  pose proof (calc_crc16_range self data initial Hi) as R.
  destruct (crc_bytes_of _ R) as [E1 E2]. rewrite E1 in Hhi. rewrite E2 in Hlo.
  unfold calc_crc16 in *. rewrite fold_left_app.
  set (crc := fold_left _ data initial) in *.
  rewrite !fold_left_cons. cbn [fold_left].
  rewrite (calc_crc16_single_byte_classic self (byte_val hi) crc)
    by auto using byte_val_range.
  rewrite Hhi, crc16_classic_byte_high.
  rewrite calc_crc16_single_byte_classic.
  - rewrite Hlo. apply crc16_classic_byte_low.
  - apply byte_val_range.
  - pose proof (Z.mod_pos_bound crc (2 ^ 8) ltac:(lia)).
    change (2 ^ 16) with (2 ^ 8 * 2 ^ 8). nia.
Qed.

(** The test a receiver makes: the checksum of the data followed by the two
    checksum bytes (high byte first) is zero. *)
Theorem calc_crc16_of_data_and_checksum (self : TransferDataCreator)
  (data : bytes) (initial : Z) (hi lo : byte) :
  0 <= initial < 2 ^ 16 ->
  byte_val hi = Z.land (Z.shiftr (calc_crc16 self data initial) 8) 0xFF ->
  byte_val lo = Z.land (calc_crc16 self data initial) 0xFF ->
  calc_crc16 self (data ++ [hi; lo]) initial = 0.
Proof.
  intros Hi Hhi Hlo.
  pose proof (calc_crc16_range self data initial Hi) as R.
  destruct (crc_bytes_of _ R) as [E1 E2]. rewrite E1 in Hhi. rewrite E2 in Hlo.
  unfold calc_crc16 in *. rewrite fold_left_app.
  set (crc := fold_left _ data initial) in *.
  rewrite !fold_left_cons. cbn [fold_left].
  rewrite (calc_crc16_single_byte_classic self (byte_val hi) crc)
    by auto using byte_val_range.
  rewrite Hhi, crc16_classic_byte_high.
  rewrite calc_crc16_single_byte_classic.
  - rewrite Hlo. apply crc16_classic_byte_low.
  - apply byte_val_range.
  - pose proof (Z.mod_pos_bound crc (2 ^ 8) ltac:(lia)).
    change (2 ^ 16) with (2 ^ 8 * 2 ^ 8). nia.
Qed.

Lemma calc_crc16_of_data_and_checksum_witness :
  calc_crc16 (TransferDataCreator_init [] 0x1021)
             ([x31; x32; x33; x34; x35; x36; x37; x38; x39] ++ [x31; xc3]) 0
  = 0.
Proof.
  apply (calc_crc16_of_data_and_checksum
           (TransferDataCreator_init [] 0x1021)
           [x31; x32; x33; x34; x35; x36; x37; x38; x39] 0 x31 xc3);
    [lia|vm_compute; reflexivity|vm_compute; reflexivity].
Defined.

(** ** Frames: failures and what a receiver can check *)

Lemma to_bytes_out_of_range (n : Z) :
  ~ 0 <= n <= 255 -> to_bytes n = Raise OverflowError.
Proof.
  intro H. unfold to_bytes.
  destruct (Z.leb_spec 0 n), (Z.leb_spec n 255); cbn [andb]; try reflexivity.
  lia.
Qed.

Lemma pad_data_too_long (self : TransferDataCreator) (data : bytes) :
  (1024 < length data)%nat -> _pad_data self data = Raise AssertionError.
Proof.
  intro H. unfold _pad_data.
  replace (Z.of_nat (length data) <=? 1024) with false
    by (symmetry; apply Z.leb_gt; lia).
  reflexivity.
Qed.

(** [_construct_single_chunk] returns a frame exactly for a block number in
    [0, 255] and at most 1024 bytes of content.  A block number outside
    that range raises [OverflowError], whatever the content; too long a
    content with a block number in range fails the assertion of
    [_pad_data]. *)
Theorem construct_single_chunk_outcome (self : TransferDataCreator)
  (content : bytes) (block_num : Z) :
  match _construct_single_chunk self content block_num with
  | Ok frame => 0 <= block_num <= 255 /\ (length content <= 1024)%nat
  | Raise e =>
      (e = OverflowError /\ ~ 0 <= block_num <= 255)
      \/ (e = AssertionError /\ 0 <= block_num <= 255
          /\ (1024 < length content)%nat)
  end.
Proof.
  destruct (Z.leb_spec 0 block_num) as [L|L];
    [destruct (Z.leb_spec block_num 255) as [U|U]|].
  - destruct (Nat.leb_spec (length content) 1024) as [S|S].
    + destruct (construct_single_chunk_ok self content block_num S)
        as (sb & cb & hi & lo & E & _); [lia|].
      rewrite E. split; [lia|assumption].
    + unfold _construct_single_chunk.
      destruct (to_bytes_ok block_num) as (sb & Esb & _); [lia|].
      destruct (to_bytes_ok (0xFF - block_num)) as (cb & Ecb & _); [lia|].
      rewrite Esb. cbn [rbind]. rewrite Ecb. cbn [rbind].
      rewrite pad_data_too_long by assumption. cbn [rbind].
      right. split; [reflexivity|]. split; [lia|assumption].
  - unfold _construct_single_chunk.
    rewrite to_bytes_out_of_range by lia. cbn [rbind].
    left. split; [reflexivity|lia].
  - unfold _construct_single_chunk.
    rewrite to_bytes_out_of_range by lia. cbn [rbind].
    left. split; [reflexivity|lia].
Qed.

(** A frame that was built, taken apart. *)
Lemma construct_single_chunk_inv (self : TransferDataCreator)
  (content : bytes) (block_num : Z) (frame : bytes) :
  _construct_single_chunk self content block_num = Ok frame ->
  0 <= block_num <= 255 /\ (length content <= 1024)%nat
  /\ exists sb cb hi lo,
       frame = [block_marker (length content); sb; cb]
                 ++ padded_block content ++ [hi; lo]
       /\ byte_val sb = block_num
       /\ byte_val cb = 0xFF - block_num
       /\ byte_val hi = calc_crc16 self (padded_block content) 0 / 256
       /\ byte_val lo = calc_crc16 self (padded_block content) 0 mod 256.
Proof.
  intro E.
  pose proof (construct_single_chunk_outcome self content block_num) as O.
  rewrite E in O. destruct O as [Hb Hl].
  split; [assumption|]. split; [assumption|].
  destruct (construct_single_chunk_ok self content block_num Hl Hb)
    as (sb & cb & hi & lo & E' & F).
  rewrite E in E'. injection E' as ->.
  exists sb, cb, hi, lo. split; [reflexivity|exact F].
Qed.

Lemma frame_block_of_frame (h1 h2 h3 c1 c2 : byte) (block : bytes) :
  frame_block ([h1; h2; h3] ++ block ++ [c1; c2]) = block.
Proof.
  unfold frame_block. rewrite !length_app. cbn [length app skipn].
  replace (3 + (length block + 2) - 5)%nat with (length block) by lia.
  rewrite firstn_app, Nat.sub_diag, firstn_all, firstn_O. apply app_nil_r.
Qed.

Lemma frame_residue_zero (self : TransferDataCreator) (block : bytes)
  (h1 h2 h3 hi lo : byte) :
  byte_val hi = calc_crc16 self block 0 / 256 ->
  byte_val lo = calc_crc16 self block 0 mod 256 ->
  calc_crc16 self (skipn 3 ([h1; h2; h3] ++ block ++ [hi; lo])) 0 = 0.
Proof.
  intros Hhi Hlo. cbn [app skipn].
  pose proof (calc_crc16_range self block 0 ltac:(lia)) as R.
  destruct (crc_bytes_of _ R) as [E1 E2].
  apply calc_crc16_residue_zero; [lia| |].
  - rewrite E1. exact Hhi.
  - rewrite E2. exact Hlo.
Qed.

(** Every frame [_construct_single_chunk] returns passes the checks of a
    receiver: the second and third byte add up to 0xFF, the checksum
    computed over the frame without its 3-byte header, that is over the
    block and the two checksum bytes, is zero, and the block between header
    and checksum is the content followed by zero bytes only. *)
Theorem built_frame_passes_receiver_checks (self : TransferDataCreator)
  (content : bytes) (block_num : Z) (frame : bytes) :
  _construct_single_chunk self content block_num = Ok frame ->
  (exists sb cb,
     nth_error frame 1 = Some sb /\ nth_error frame 2 = Some cb
     /\ byte_val sb + byte_val cb = 0xFF)
  /\ calc_crc16 self (skipn 3 frame) 0 = 0
  /\ frame_block frame
     = content ++ repeat x00 (length (frame_block frame) - length content).
Proof.
  intro E. apply construct_single_chunk_inv in E.
  destruct E as (Hb & Hl & sb & cb & hi & lo & -> & Vs & Vc & Vh & Vl).
  split; [|split].
  - exists sb, cb. split; [reflexivity|]. split; [reflexivity|lia].
  - apply frame_residue_zero; assumption.
  - rewrite frame_block_of_frame. unfold padded_block at 1.
    rewrite padded_block_length by assumption.
    reflexivity.
Qed.

Lemma built_frame_passes_receiver_checks_witness :
  calc_crc16 scenario_B
    (skipn 3
       ([x01; x01; xfe] ++ padded_block scenario_B_header ++ [x50; x1e])) 0
  = 0.
Proof.
  apply (built_frame_passes_receiver_checks scenario_B scenario_B_header 1
           ([x01; x01; xfe] ++ padded_block scenario_B_header ++ [x50; x1e])).
  vm_compute. reflexivity.
Defined.

(** ** Plans: splitting, reassembly and the frames as a receiver sees them *)

Lemma by_blocks (P : bytes -> Prop) :
  (forall cur, (length cur < 1024)%nat -> P cur) ->
  (forall x y, length x = 1024%nat -> P y -> P (x ++ y)) ->
  forall data, P data.
Proof.
  intros Hshort Hcons.
  assert (H : forall n data, (length data <= n)%nat -> P data).
  { induction n as [|n IH]; intros data Hn.
    - apply Hshort. lia.
    - destruct (Nat.lt_ge_cases (length data) 1024) as [L|L];
        [now apply Hshort|].
      rewrite <- (firstn_skipn 1024 data). apply Hcons.
      + rewrite length_firstn. lia.
      + apply IH. rewrite length_skipn. lia. }
  intro data. now apply (H (length data)).
Qed.

Lemma concat_payload_blocks (data : bytes) :
  concat (payload_blocks data) = data.
Proof.
  induction data as [cur Hcur|x y Hx IH] using by_blocks.
  - rewrite payload_blocks_short by assumption.
    destruct (Nat.eqb_spec (length cur) 0) as [E|E].
    + now destruct cur.
    + cbn [concat]. apply app_nil_r.
  - rewrite payload_blocks_cons by assumption.
    cbn [concat]. now rewrite IH.
Qed.

Lemma padded_block_full (x : bytes) :
  length x = 1024%nat -> padded_block x = x.
Proof.
  intro H. unfold padded_block, block_size. rewrite H.
  cbn [Nat.leb]. rewrite Nat.sub_diag. apply app_nil_r.
Qed.

Lemma concat_padded_payload_blocks (data : bytes) :
  exists k,
    concat (map padded_block (payload_blocks data)) = data ++ repeat x00 k.
Proof.
  induction data as [cur Hcur|x y Hx IH] using by_blocks.
  - rewrite payload_blocks_short by assumption.
    destruct (Nat.eqb_spec (length cur) 0) as [E|E].
    + exists 0%nat. now destruct cur.
    + eexists. cbn [map concat]. rewrite app_nil_r. reflexivity.
  - destruct IH as [k IH]. exists k.
    rewrite payload_blocks_cons by assumption.
    cbn [map concat]. rewrite IH, padded_block_full by assumption.
    apply app_assoc.
Qed.

(** [get_data_parts] cuts the payload into [ceil(len/1024)] parts of 1 to
    1024 bytes each which, put back together in order, are the payload. *)
Theorem get_data_parts_round_trip (data : bytes) :
  concat (get_data_parts data) = data
  /\ length (get_data_parts data) = block_count (length data)
  /\ Forall (fun part => (1 <= length part <= 1024)%nat)
            (get_data_parts data).
Proof.
  rewrite get_data_parts_blocks.
  split; [apply concat_payload_blocks|]. split.
  - unfold payload_blocks. now rewrite length_map, length_seq.
  - apply Forall_forall. intros part Hin. unfold payload_blocks in Hin.
    apply in_map_iff in Hin. destruct Hin as (i & <- & Hi).
    apply in_seq in Hi. apply payload_block_sizes. lia.
Qed.

(** The frames of a plan, position by position. *)
Lemma get_transfer_chunks_frames (self : TransferDataCreator) :
  (forall h, _header self = Some h -> length h = 12%nat) ->
  exists plan,
    get_transfer_chunks self = Ok plan
    /\ length plan = length (plan_contents self)
    /\ forall k content,
         nth_error (plan_contents self) k = Some content ->
         exists frame,
           nth_error plan k = Some frame
           /\ _construct_single_chunk self content
                ((Z.of_nat k + 1) mod 256) = Ok frame.
Proof.
  intro Hheader. unfold get_transfer_chunks, plan_contents.
  rewrite get_data_parts_blocks.
  destruct (_header self) as [header|] eqn:Eh.
  - destruct (construct_single_chunk_ok self header 1) as
      (sb & cb & hi & lo & E & _); [rewrite (Hheader header eq_refl); lia|lia|].
    set (frame0 := _ ++ _) in E. rewrite E. cbn [rbind].
    destruct (construct_parts_ok self _ (payload_blocks_bounded (_data self))
                (1 + 1) ([] ++ [frame0]))
      as (frames & Eframes & Hlen & Hnth); [lia|].
    exists (frame0 :: frames).
    split; [exact Eframes|].
    split; [cbn [length app]; now rewrite Hlen|].
    intros [|k] content Hk; cbn [app nth_error] in *.
    + injection Hk as <-. exists frame0. split; [reflexivity|exact E].
    + destruct (Hnth k content Hk) as (frame & F1 & F2).
      exists frame. split; [assumption|].
      replace (Z.of_nat (S k) + 1) with (1 + 1 + Z.of_nat k) by lia.
      exact F2.
  - destruct (construct_parts_ok self _ (payload_blocks_bounded (_data self))
                1 [])
      as (frames & Eframes & Hlen & Hnth); [lia|].
    exists frames.
    split; [exact Eframes|]. split; [cbn [app]; exact Hlen|].
    intros k content Hk. cbn [app] in Hk.
    destruct (Hnth k content Hk) as (frame & F1 & F2).
    exists frame. split; [assumption|].
    replace (Z.of_nat k + 1) with (1 + Z.of_nat k) by lia.
    exact F2.
Qed.

Lemma map_eq_by_nth {A B C : Type} (f : A -> C) (g : B -> C) :
  forall (l : list A) (l' : list B),
    length l = length l' ->
    (forall i b, nth_error l' i = Some b ->
                 exists a, nth_error l i = Some a /\ f a = g b) ->
    map f l = map g l'.
Proof.
  induction l as [|a l IH]; intros [|b l'] Hlen H; try discriminate.
  - reflexivity.
  - cbn [map]. f_equal.
    + destruct (H 0%nat b eq_refl) as (a' & [= <-] & E). exact E.
    + apply IH; [now injection Hlen|].
      intros i b' Hi. exact (H (S i) b' Hi).
Qed.

(** Seen through [frame_block], a plan is its contents, each padded. *)
Lemma plan_blocks (self : TransferDataCreator) (plan : list bytes) :
  (forall h, _header self = Some h -> length h = 12%nat) ->
  get_transfer_chunks self = Ok plan ->
  map frame_block plan = map padded_block (plan_contents self).
Proof.
  intros Hheader E.
  destruct (get_transfer_chunks_frames self Hheader)
    as (plan' & E' & Hlen & Hnth).
  rewrite E in E'. injection E' as <-.
  apply map_eq_by_nth; [exact Hlen|].
  intros i content Hi. destruct (Hnth i content Hi) as (frame & F1 & F2).
  exists frame. split; [assumption|].
  apply construct_single_chunk_inv in F2.
  destruct F2 as (_ & _ & sb & cb & hi & lo & -> & _).
  apply frame_block_of_frame.
Qed.

(** A receiver that takes the block out of every payload frame of a plan,
    joins the blocks and keeps as many bytes as the payload has (the size
    field of the header) gets the payload back. *)
Theorem plan_round_trip (self : TransferDataCreator) (plan : list bytes) :
  (forall h, _header self = Some h -> length h = 12%nat) ->
  get_transfer_chunks self = Ok plan ->
  firstn (length (_data self))
         (concat (map frame_block (payload_frames self plan)))
  = _data self.
Proof.
  intros Hheader E.
  pose proof (plan_blocks self plan Hheader E) as B.
  assert (P : map frame_block (payload_frames self plan)
              = map padded_block (payload_blocks (_data self))).
  { unfold payload_frames, plan_contents in *.
    destruct (_header self) as [header|].
    - destruct plan as [|frame0 plan]; [discriminate|].
      cbn [map app tl] in *. now injection B.
    - exact B. }
  rewrite P.
  destruct (concat_padded_payload_blocks (_data self)) as [k ->].
  rewrite firstn_app, Nat.sub_diag, firstn_all, firstn_O. apply app_nil_r.
Qed.

Lemma plan_round_trip_witness :
  firstn (length (_data scenario_B))
         (concat (map frame_block (payload_frames scenario_B scenario_B_plan)))
  = _data scenario_B.
Proof.
  apply (plan_round_trip scenario_B scenario_B_plan).
  - intros h [= <-]. reflexivity.
  - vm_compute. reflexivity.
Defined.

Lemma plan_frame_origin (self : TransferDataCreator) (plan : list bytes)
  (k : nat) (frame : bytes) :
  (forall h, _header self = Some h -> length h = 12%nat) ->
  get_transfer_chunks self = Ok plan ->
  nth_error plan k = Some frame ->
  exists content,
    nth_error (plan_contents self) k = Some content
    /\ _construct_single_chunk self content ((Z.of_nat k + 1) mod 256)
       = Ok frame.
Proof.
  intros Hheader E Hk.
  destruct (get_transfer_chunks_frames self Hheader)
    as (plan' & E' & Hlen & Hnth).
  rewrite E in E'. injection E' as <-.
  assert (L : (k < length (plan_contents self))%nat).
  { rewrite <- Hlen. apply nth_error_Some. congruence. }
  destruct (nth_error (plan_contents self) k) as [content|] eqn:C;
    [|apply nth_error_None in C; lia].
  exists content. split; [reflexivity|].
  destruct (Hnth k content C) as (frame' & F1 & F2). congruence.
Qed.

(** Every frame of a plan is 133 or 1029 bytes long and has a zero checksum
    over block and checksum bytes: no frame of a plan is one a receiver
    would reject as damaged. *)
Theorem plan_frames_pass_receiver_checks (self : TransferDataCreator)
  (plan : list bytes) :
  (forall h, _header self = Some h -> length h = 12%nat) ->
  get_transfer_chunks self = Ok plan ->
  Forall (fun frame =>
            (length frame = 133%nat \/ length frame = 1029%nat)
            /\ calc_crc16 self (skipn 3 frame) 0 = 0) plan.
Proof.
  intros Hheader E. apply Forall_forall. intros frame Hin.
  apply In_nth_error in Hin. destruct Hin as [k Hk].
  destruct (plan_frame_origin self plan k frame Hheader E Hk)
    as (content & _ & F).
  apply construct_single_chunk_inv in F.
  destruct F as (_ & Hl & sb & cb & hi & lo & -> & _ & _ & Vh & Vl).
  split.
  - rewrite !length_app, padded_block_length by assumption.
    unfold block_size. cbn [length].
    destruct (Nat.leb_spec (length content) 128); [left|right]; lia.
  - apply frame_residue_zero; assumption.
Qed.

Lemma plan_frames_pass_receiver_checks_witness :
  Forall (fun frame =>
            (length frame = 133%nat \/ length frame = 1029%nat)
            /\ calc_crc16 scenario_B (skipn 3 frame) 0 = 0) scenario_B_plan.
Proof.
  apply (plan_frames_pass_receiver_checks scenario_B scenario_B_plan).
  - intros h [= <-]. reflexivity.
  - vm_compute. reflexivity.
Defined.

Lemma byte_of_val (b : byte) (n : N) :
  byte_val b = Z.of_N n -> Byte.of_N n = Some b.
Proof.
  unfold byte_val. intro H. apply N2Z.inj in H. subst n.
  apply Byte.of_to_N.
Qed.

(** The frame at position [k] of a plan carries [(k + 1) mod 256] in its
    second byte and 255 minus that in its third.  The numbers so go 1, 2,
    ..., 255, 0, 1, ...: the frame at position 255 has number 0, and the
    frame at position 256 has number 1 like the first one. *)
Theorem plan_frame_numbers (self : TransferDataCreator) (k : nat)
  (content : bytes) :
  (forall h, _header self = Some h -> length h = 12%nat) ->
  nth_error (plan_contents self) k = Some content ->
  exists plan frame sb cb,
    get_transfer_chunks self = Ok plan
    /\ nth_error plan k = Some frame
    /\ nth_error frame 1 = Some sb
    /\ nth_error frame 2 = Some cb
    /\ byte_val sb = (Z.of_nat k + 1) mod 256
    /\ byte_val cb = 0xFF - byte_val sb
    /\ (k = 255%nat -> sb = x00)
    /\ (k = 256%nat -> sb = x01).
Proof.
  intros Hheader Hk.
  destruct (get_transfer_chunks_frames self Hheader)
    as (plan & E & _ & Hnth).
  destruct (Hnth k content Hk) as (frame & F1 & F2).
  apply construct_single_chunk_inv in F2.
  destruct F2 as (_ & _ & sb & cb & hi & lo & -> & Vs & Vc & _).
  eexists plan, _, sb, cb.
  split; [exact E|]. split; [exact F1|].
  split; [reflexivity|]. split; [reflexivity|].
  split; [exact Vs|]. split; [lia|]. split; intros ->.
  - apply (byte_of_val sb 0) in Vs. now injection Vs.
  - apply (byte_of_val sb 1) in Vs. now injection Vs.
Qed.

Lemma plan_frame_numbers_witness :
  exists plan frame sb cb,
    get_transfer_chunks scenario_B = Ok plan
    /\ nth_error plan 1 = Some frame
    /\ nth_error frame 1 = Some sb
    /\ nth_error frame 2 = Some cb
    /\ byte_val sb = (Z.of_nat 1 + 1) mod 256
    /\ byte_val cb = 0xFF - byte_val sb
    /\ (1%nat = 255%nat -> sb = x00)
    /\ (1%nat = 256%nat -> sb = x01).
Proof.
  apply (plan_frame_numbers scenario_B 1 (repeat x07 50)).
  - intros h [= <-]. reflexivity.
  - reflexivity.
Defined.

(** ** The session as a whole *)

Lemma reports_app (a b : list event) :
  reports (a ++ b) = reports a ++ reports b.
Proof.
  induction a as [|e a IH]; [reflexivity|].
  destruct e as [| | | | | |[]]; cbn [app reports]; now rewrite IH.
Qed.

Section Runs.

Context {W : Type} (uart : SerialPort W).

Lemma bind_outcome {A B : Type} (m : M W A) (k : A -> M W B) (w : W) :
  outcome (bind m k w) =
  match outcome (m w) with
  | Ok a => outcome (k a (final (m w)))
  | Raise e => Raise e
  end.
Proof.
  unfold bind, outcome, final.
  destruct (m w) as [[[a|e] w1] t1]; [|reflexivity].
  cbn [fst snd]. now destruct (k a w1) as [[r w2] t2].
Qed.

Lemma bind_trace {A B : Type} (m : M W A) (k : A -> M W B) (w : W) :
  trace (bind m k w) =
  trace (m w) ++ match outcome (m w) with
                 | Ok a => trace (k a (final (m w)))
                 | Raise e => []
                 end.
Proof.
  unfold bind, outcome, final, trace.
  destruct (m w) as [[[a|e] w1] t1]; cbn [fst snd].
  - now destruct (k a w1) as [[r w2] t2].
  - now rewrite app_nil_r.
Qed.

Lemma open_port_reports (self : FirmwareUploader) (w : W) :
  reports (trace (open_port uart self w)) = [].
Proof.
  unfold open_port, bind, call, time_sleep.
  now destruct (port_open uart (_uart_path self) w) as [[[]|e] w1].
Qed.

Lemma wait_for_ping_reports (w : W) :
  reports (trace (wait_for_ping uart w)) = [].
Proof.
  unfold wait_for_ping, bind, uart_read_all, uart_read, call, ret, raise.
  destruct (port_read_all uart w) as [[[r|]|e] w1]; [| |reflexivity].
  - now destruct ((length r =? 0)%nat || negb (endswith r PING)).
  - destruct (port_read uart w1) as [[r|e] w2]; [|reflexivity].
    now destruct ((length r =? 0)%nat || negb (endswith r PING)).
Qed.

Lemma send_eot_trace (w : W) :
  writes (trace (send_eot uart w)) = [EOT]
  /\ reports (trace (send_eot uart w)) = [].
Proof.
  unfold send_eot, bind, uart_write, uart_read, call, print, raise.
  destruct (port_write uart EOT w) as [[[]|e] w1]; [|split; reflexivity].
  destruct (port_read uart w1) as [[r|e] w2]; [|split; reflexivity].
  destruct (negb (bytes_eqb r ACK)); split; reflexivity.
Qed.

Lemma reports_shift (total index : Z) (n : nat) :
  map (fun k => (index + 1 + Z.of_nat k, total)) (seq 0 n)
  = map (fun k => (index + Z.of_nat k, total)) (seq 1 n).
Proof.
  rewrite <- seq_shift, map_map. apply map_ext. intro k.
  f_equal. lia.
Qed.

(** One turn of the loop: it stops after the write, a read or the check,
    or goes on with the next chunk. *)
Lemma send_chunks_turn (total : Z) (chunk : bytes) (chunks : list bytes)
  (index : Z) (w : W) :
  (exists t,
     trace (send_chunks uart total (chunk :: chunks) index w)
     = EvPrint (MsgSending index total) :: EvWrite chunk :: t
     /\ writes t = [] /\ reports t = []
     /\ outcome (send_chunks uart total (chunk :: chunks) index w) <> Ok tt)
  \/ (exists w4,
        trace (send_chunks uart total (chunk :: chunks) index w)
        = [EvPrint (MsgSending index total); EvWrite chunk; EvRead;
           EvReadAll]
            ++ trace (send_chunks uart total chunks (index + 1) w4)
        /\ outcome (send_chunks uart total (chunk :: chunks) index w)
           = outcome (send_chunks uart total chunks (index + 1) w4)).
Proof.
  rewrite send_chunks_step.
  unfold bind, print, uart_write, uart_read, uart_read_all, call, raise,
    outcome, trace.
  destruct (port_write uart chunk w) as [[[]|e] w2];
    [|left; eexists; cbn; repeat split; discriminate].
  destruct (port_read uart w2) as [[response|e] w3];
    [|left; eexists; cbn; repeat split; discriminate].
  destruct (port_read_all uart w3) as [[empty|e] w4];
    [|left; eexists; cbn; repeat split; discriminate].
  destruct (negb (bytes_eqb response ACK) || _).
  - left. eexists. cbn. repeat split. discriminate.
  - right. exists w4.
    destruct (send_chunks uart total chunks (index + 1) w4) as [[r w5] t5].
    cbn. split; reflexivity.
Qed.

(** What the loop has written and reported, however it ended. *)
Lemma send_chunks_run (total : Z) (chunks : list bytes) :
  forall (index : Z) (w : W),
    exists n,
      (n <= length chunks)%nat
      /\ writes (trace (send_chunks uart total chunks index w))
         = firstn n chunks
      /\ reports (trace (send_chunks uart total chunks index w))
         = map (fun k => (index + Z.of_nat k, total)) (seq 0 n)
      /\ (outcome (send_chunks uart total chunks index w) = Ok tt ->
          n = length chunks).
Proof.
  induction chunks as [|chunk chunks IH]; intros index w.
  - exists 0%nat. cbn. repeat split; lia.
  - destruct (send_chunks_turn total chunk chunks index w)
      as [(t & -> & Hw & Hr & Ho)|(w4 & -> & ->)].
    + exists 1%nat. cbn [writes reports length firstn seq map].
      rewrite Hw, Hr, Z.add_0_r.
      repeat split; [lia|]. intro. contradiction.
    + destruct (IH (index + 1) w4) as (n & Hn & Hw & Hr & Ho).
      exists (S n). cbn [app writes reports length firstn].
      rewrite Hw, Hr. split; [lia|]. split; [reflexivity|]. split.
      * cbn [seq map]. rewrite Z.add_0_r. f_equal. apply reports_shift.
      * intro Hok. f_equal. now apply Ho.
Qed.

(** The whole session, cut into what happened before the loop, in the loop
    and after it. *)
Lemma upload_data_run (self : FirmwareUploader) (w : W) :
  exists n,
    (n <= length (_chunks self))%nat
    /\ (outcome (upload_data uart self w) = Ok tt ->
        n = length (_chunks self))
    /\ ((writes (trace (upload_data uart self w)) = firstn n (_chunks self)
         /\ outcome (upload_data uart self w) <> Ok tt)
        \/ (n = length (_chunks self)
            /\ writes (trace (upload_data uart self w))
               = _chunks self ++ [EOT]))
    /\ reports (trace (upload_data uart self w))
       = map (fun k => (1 + Z.of_nat k, Z.of_nat (length (_chunks self))))
             (seq 0 n).
Proof.
  unfold upload_data.
  rewrite ?bind_outcome, ?bind_trace, ?writes_app, ?reports_app.
  rewrite open_port_writes, open_port_reports.
  destruct (outcome (open_port uart self w)) as [[]|e].
  2:{ exists 0%nat. cbn. repeat split; try lia; try discriminate.
      left. split; [reflexivity|discriminate]. }
  rewrite ?bind_outcome, ?bind_trace, ?writes_app, ?reports_app.
  rewrite wait_for_ping_writes, wait_for_ping_reports.
  destruct (outcome (wait_for_ping uart _)) as [[]|e].
  2:{ exists 0%nat. cbn. repeat split; try lia; try discriminate.
      left. split; [reflexivity|discriminate]. }
  rewrite ?bind_outcome, ?bind_trace, ?writes_app, ?reports_app.
  set (w1 := final (wait_for_ping uart _)).
  destruct (send_chunks_run (Z.of_nat (length (_chunks self)))
              (_chunks self) 1 w1) as (n & Hn & Hw & Hr & Ho).
  rewrite Hw, Hr. exists n.
  destruct (outcome (send_chunks uart _ (_chunks self) 1 w1)) as [[]|e].
  - specialize (Ho eq_refl). subst n.
    destruct (send_eot_trace (final (send_chunks uart
                (Z.of_nat (length (_chunks self))) (_chunks self) 1 w1)))
      as [Ew Er].
    rewrite Ew, Er, firstn_all, app_nil_r. cbn [app].
    repeat split; try lia. right. split; reflexivity.
  - cbn [app]. rewrite !app_nil_r.
    repeat split; try lia; try discriminate.
    left. split; [reflexivity|discriminate].
Qed.

End Runs.

(** Whatever the device does and however the session ends, the byte strings
    written to the port are a prefix of the plan followed by the end of
    transmission byte: frames go out in plan order, none twice, none
    skipped, and 0x04 only after all of them.  A session that completes has
    written the whole plan and then 0x04. *)
Theorem upload_data_writes_in_order {W : Type} (uart : SerialPort W)
  (self : FirmwareUploader) (w : W) :
  (exists n, writes (trace (upload_data uart self w))
             = firstn n (_chunks self ++ [EOT]))
  /\ (outcome (upload_data uart self w) = Ok tt ->
      writes (trace (upload_data uart self w)) = _chunks self ++ [EOT]).
Proof.
  destruct (upload_data_run uart self w)
    as (n & Hn & Ho & [[Hw Hf]|[-> Hw]] & _).
  - split; [|intro; contradiction].
    exists n. rewrite Hw, firstn_app.
    replace (n - length (_chunks self))%nat with 0%nat by lia.
    now rewrite firstn_O, app_nil_r.
  - split; [|intros _; exact Hw].
    exists (S (length (_chunks self))). rewrite Hw.
    symmetry. apply firstn_all2. rewrite length_app. cbn [length]. lia.
Qed.

Lemma upload_data_writes_in_order_witness :
  writes (trace (upload_data fake_port demo_uploader (receiver_acks 3)))
  = _chunks demo_uploader ++ [EOT].
Proof.
  apply (upload_data_writes_in_order fake_port demo_uploader
           (receiver_acks 3)).
  reflexivity.
Defined.

(** The progress reports of a session count the frames written so far: the
    k-th "Sending chunk" line carries the index k (from 1) and the number
    of chunks as total, and there is one line for every frame that was
    written, none for the end of transmission byte. *)
Theorem upload_data_reports {W : Type} (uart : SerialPort W)
  (self : FirmwareUploader) (w : W) :
  reports (trace (upload_data uart self w))
  = map (fun k => (1 + Z.of_nat k, Z.of_nat (length (_chunks self))))
        (seq 0 (Nat.min (length (writes (trace (upload_data uart self w))))
                        (length (_chunks self)))).
Proof.
  destruct (upload_data_run uart self w)
    as (n & Hn & Ho & [[Hw Hf]|[-> Hw]] & Hr); rewrite Hr, Hw.
  - rewrite length_firstn. do 2 f_equal. lia.
  - rewrite length_app. cbn [length]. do 2 f_equal. lia.
Qed.

(** ** Where a failure of the session comes from *)

Section Failures.

Context {W : Type} (uart : SerialPort W).

Lemma call_raises {A : Type} (ev : event) (f : W -> result A * W) (w : W)
  (e : exception) :
  outcome (call ev f w) = Raise e -> exists w', f w = (Raise e, w').
Proof.
  unfold call, outcome. destruct (f w) as [[a|e'] w1]; cbn [fst];
    [discriminate|].
  intros [= ->]. now exists w1.
Qed.

Lemma open_port_failure (self : FirmwareUploader) (w : W) (e : exception) :
  outcome (open_port uart self w) = Raise e -> port_raises uart e.
Proof.
  unfold open_port. rewrite bind_outcome.
  destruct (outcome (call _ _ w)) as [[]|e'] eqn:O; [discriminate|].
  intros [= ->]. apply call_raises in O. destruct O as [w' O].
  exists w, w'. left. now exists (_uart_path self).
Qed.

Lemma wait_for_ping_failure (w : W) (e : exception) :
  outcome (wait_for_ping uart w) = Raise e ->
  e = NoReadyMarker \/ port_raises uart e.
Proof.
  unfold wait_for_ping, bind, uart_read_all, uart_read, call, ret, raise,
    outcome.
  destruct (port_read_all uart w) as [[[r|]|e'] w1] eqn:O1.
  - destruct (_ || _); cbn [fst]; [|discriminate]. intros [= <-]. now left.
  - destruct (port_read uart w1) as [[r|e'] w2] eqn:O2.
    + destruct (_ || _); cbn [fst]; [|discriminate]. intros [= <-]. now left.
    + cbn [fst]. intros [= ->]. right. exists w1, w2. right. right. now left.
  - cbn [fst]. intros [= ->]. right. exists w, w1. right. now left.
Qed.

Lemma send_chunks_failure (total : Z) (chunks : list bytes) :
  forall (index : Z) (w : W) (e : exception),
    outcome (send_chunks uart total chunks index w) = Raise e ->
    e = UnexpectedReply \/ port_raises uart e.
Proof.
  induction chunks as [|chunk chunks IH]; intros index w e;
    [discriminate|].
  rewrite send_chunks_step. rewrite bind_outcome. cbn [print outcome fst].
  rewrite bind_outcome.
  destruct (outcome (uart_write uart chunk _)) as [[]|e'] eqn:O1.
  2:{ intros [= ->]. apply call_raises in O1. destruct O1 as [w' O1].
      right. eexists _, w'. right. right. right. exists chunk. exact O1. }
  rewrite bind_outcome.
  destruct (outcome (uart_read uart _)) as [response|e'] eqn:O2.
  2:{ intros [= ->]. apply call_raises in O2. destruct O2 as [w' O2].
      right. eexists _, w'. right. right. left. exact O2. }
  rewrite bind_outcome.
  destruct (outcome (uart_read_all uart _)) as [empty|e'] eqn:O3.
  2:{ intros [= ->]. apply call_raises in O3. destruct O3 as [w' O3].
      right. eexists _, w'. right. left. exact O3. }
  destruct (negb (bytes_eqb response ACK) || _).
  - intros [= <-]. now left.
  - apply IH.
Qed.

Lemma send_eot_failure (w : W) (e : exception) :
  outcome (send_eot uart w) = Raise e ->
  e = NoFinalAck \/ port_raises uart e.
Proof.
  unfold send_eot. rewrite bind_outcome.
  destruct (outcome (uart_write uart EOT w)) as [[]|e'] eqn:O1.
  2:{ intros [= ->]. apply call_raises in O1. destruct O1 as [w' O1].
      right. exists w, w'. right. right. right. exists EOT. exact O1. }
  rewrite bind_outcome.
  destruct (outcome (uart_read uart _)) as [response|e'] eqn:O2.
  2:{ intros [= ->]. apply call_raises in O2. destruct O2 as [w' O2].
      right. eexists _, w'. right. right. left. exact O2. }
  destruct (negb _); [|discriminate]. intros [= <-]. now left.
Qed.

End Failures.

(** A session fails in one of four ways only: with one of its own three
    errors (no ping, no lone ACK for a frame, no ACK for the end of
    transmission), or with an exception that a call on the port raised,
    which it lets through unchanged.  On a port that never raises, the
    three protocol errors are the only failures. *)
Theorem upload_data_failures {W : Type} (uart : SerialPort W)
  (self : FirmwareUploader) (w : W) (e : exception) :
  outcome (upload_data uart self w) = Raise e ->
  e = NoReadyMarker \/ e = UnexpectedReply \/ e = NoFinalAck
  \/ port_raises uart e.
Proof.
  unfold upload_data. rewrite bind_outcome.
  destruct (outcome (open_port uart self w)) as [[]|e'] eqn:O1.
  2:{ intros [= ->]. do 3 right. exact (open_port_failure uart self w e O1). }
  rewrite bind_outcome.
  destruct (outcome (wait_for_ping uart _)) as [[]|e'] eqn:O2.
  2:{ intros [= ->].
      destruct (wait_for_ping_failure uart _ e O2); [now left|now do 3 right]. }
  rewrite bind_outcome.
  destruct (outcome (send_chunks uart _ _ 1 _)) as [[]|e'] eqn:O3.
  2:{ intros [= ->].
      destruct (send_chunks_failure uart _ _ _ _ e O3);
        [right; now left|now do 3 right]. }
  intro O4. destruct (send_eot_failure uart _ e O4);
    [right; right; now left|now do 3 right].
Qed.

Lemma upload_data_failures_witness :
  UnexpectedReply = NoReadyMarker \/ UnexpectedReply = UnexpectedReply
  \/ UnexpectedReply = NoFinalAck \/ port_raises fake_port UnexpectedReply.
Proof.
  apply (upload_data_failures fake_port demo_uploader receiver_nak_first).
  reflexivity.
Defined.

(** ** A receiver that acknowledges *)

Lemma send_chunks_acked (total : Z) (chunks : list bytes) :
  forall (index : Z) (m : nat),
    outcome (send_chunks fake_port total chunks index
               (mkFakeUart [] (repeat ACK (length chunks + m)))) = Ok tt
    /\ final (send_chunks fake_port total chunks index
                (mkFakeUart [] (repeat ACK (length chunks + m))))
       = mkFakeUart [] (repeat ACK m).
Proof.
  induction chunks as [|chunk chunks IH]; intros index m;
    [split; reflexivity|].
  specialize (IH (index + 1) m).
  rewrite send_chunks_step.
  unfold bind, print, uart_write, uart_read, uart_read_all, call.
  cbn -[send_chunks].
  destruct (send_chunks fake_port total chunks (index + 1) _)
    as [[r w'] t].
  exact IH.
Qed.

(** Completion is reachable for every plan: with a receiver that has sent
    the ping and answers each write with one ACK byte, the session sends
    every frame and the end of transmission byte and completes. *)
Theorem upload_data_completes_when_acknowledged (chunks : list bytes)
  (path : string) :
  outcome (upload_data fake_port (mkFirmwareUploader chunks path)
                       (receiver_acks (S (length chunks)))) = Ok tt
  /\ final (upload_data fake_port (mkFirmwareUploader chunks path)
                        (receiver_acks (S (length chunks))))
     = mkFakeUart [] []
  /\ writes (trace (upload_data fake_port (mkFirmwareUploader chunks path)
                                (receiver_acks (S (length chunks)))))
     = chunks ++ [EOT].
Proof.
  assert (O : outcome (upload_data fake_port (mkFirmwareUploader chunks path)
                         (receiver_acks (S (length chunks)))) = Ok tt
              /\ final (upload_data fake_port
                          (mkFirmwareUploader chunks path)
                          (receiver_acks (S (length chunks))))
                 = mkFakeUart [] []).
  { destruct (send_chunks_acked (Z.of_nat (length chunks)) chunks 1 1)
      as [So Sf].
    unfold upload_data, open_port, wait_for_ping, send_eot, receiver_acks.
    unfold bind, uart_write, uart_read, uart_read_all, call, time_sleep,
      ret, raise, print.
    replace (S (length chunks)) with (length chunks + 1)%nat by lia.
    cbn -[send_chunks repeat Nat.add].
    destruct (send_chunks fake_port _ chunks 1 _) as [[r w'] t].
    unfold outcome, final in So, Sf. cbn [fst snd] in So, Sf. subst r w'.
    cbn. split; reflexivity. }
  destruct O as [O F]. split; [exact O|]. split; [exact F|].
  destruct (upload_data_run fake_port (mkFirmwareUploader chunks path)
              (receiver_acks (S (length chunks))))
    as (n & _ & _ & [[_ Hf]|[_ Hw]] & _); [contradiction|exact Hw].
Qed.

(** ** The header and the set-up of [main] *)

Lemma pack_L_raise (n : Z) (e : exception) :
  pack_L n = Raise e -> e = StructError /\ ~ 0 <= n <= 0xFFFFFFFF.
Proof.
  unfold pack_L.
  destruct (Z.leb_spec 0 n), (Z.leb_spec n 0xFFFFFFFF); cbn [andb];
    try discriminate; intros [= <-]; split; try reflexivity; lia.
Qed.

Lemma header_fields (a b c : bytes) (x y z : Z) :
  length a = 4%nat -> length b = 4%nat -> length c = 4%nat ->
  int_from_bytes_big a = x -> int_from_bytes_big b = y ->
  int_from_bytes_big c = z ->
  length (a ++ b ++ c) = 12%nat
  /\ int_from_bytes_big (firstn 4 (a ++ b ++ c)) = x
  /\ int_from_bytes_big (firstn 4 (skipn 4 (a ++ b ++ c))) = y
  /\ int_from_bytes_big (skipn 8 (a ++ b ++ c)) = z.
Proof.
  intros La Lb Lc Va Vb Vc.
  assert (F1 : firstn 4 (a ++ b ++ c) = a).
  { rewrite firstn_app, La, Nat.sub_diag, firstn_O, app_nil_r.
    rewrite <- La. apply firstn_all. }
  assert (S1 : skipn 4 (a ++ b ++ c) = b ++ c).
  { rewrite skipn_app, La, Nat.sub_diag, skipn_O.
    rewrite <- La, skipn_all. reflexivity. }
  assert (F2 : firstn 4 (b ++ c) = b).
  { rewrite firstn_app, Lb, Nat.sub_diag, firstn_O, app_nil_r.
    rewrite <- Lb. apply firstn_all. }
  assert (S2 : skipn 8 (a ++ b ++ c) = c).
  { change 8%nat with (4 + 4)%nat. rewrite <- skipn_skipn, S1.
    rewrite skipn_app, Lb, Nat.sub_diag, skipn_O.
    rewrite <- Lb, skipn_all. reflexivity. }
  rewrite F1, S1, F2, S2, !length_app, La, Lb, Lc.
  repeat split; assumption.
Qed.

Lemma pack_L_length (n : Z) (b : bytes) :
  pack_L n = Ok b -> length b = 4%nat.
Proof.
  intro E. apply pack_L_inv in E. destruct E as (_ & -> & _). reflexivity.
Qed.

Lemma add_header_inv (self self' : TransferDataCreator)
  (flash_offset flash_size flags : Z) :
  add_header self flash_offset flash_size flags = Ok self' ->
  _data self' = _data self
  /\ exists h, _header self' = Some h /\ length h = 12%nat.
Proof.
  unfold add_header, struct_pack_LLL.
  destruct (pack_L flash_offset) as [a|e] eqn:Ea; [|discriminate].
  destruct (pack_L flash_size) as [b|e] eqn:Eb; [|discriminate].
  destruct (pack_L flags) as [c|e] eqn:Ec; [|discriminate].
  cbn [rbind]. intros [= <-]. cbn [_data _header].
  split; [reflexivity|]. exists (a ++ b ++ c). split; [reflexivity|].
  rewrite !length_app, (pack_L_length _ _ Ea), (pack_L_length _ _ Eb),
    (pack_L_length _ _ Ec).
  reflexivity.
Qed.

(** [add_header] succeeds exactly when offset, size and flags all fit an
    unsigned 32-bit field, and raises [struct.error] otherwise.  When it
    succeeds it leaves payload and polynomial alone and stores a 12-byte
    header from which the three values are read back as big-endian
    integers. *)
Theorem add_header_outcome (self : TransferDataCreator)
  (flash_offset flash_size flags : Z) :
  match add_header self flash_offset flash_size flags with
  | Ok self' =>
      (0 <= flash_offset <= 0xFFFFFFFF /\ 0 <= flash_size <= 0xFFFFFFFF
       /\ 0 <= flags <= 0xFFFFFFFF)
      /\ _data self' = _data self
      /\ _polynomial self' = _polynomial self
      /\ exists header,
           _header self' = Some header
           /\ length header = 12%nat
           /\ int_from_bytes_big (firstn 4 header) = flash_offset
           /\ int_from_bytes_big (firstn 4 (skipn 4 header)) = flash_size
           /\ int_from_bytes_big (skipn 8 header) = flags
  | Raise e =>
      e = StructError
      /\ ~ (0 <= flash_offset <= 0xFFFFFFFF /\ 0 <= flash_size <= 0xFFFFFFFF
            /\ 0 <= flags <= 0xFFFFFFFF)
  end.
Proof.
  unfold add_header, struct_pack_LLL.
  destruct (pack_L flash_offset) as [a|e] eqn:Ea;
    [|apply pack_L_raise in Ea; cbn [rbind]; split; [tauto|lia]].
  destruct (pack_L flash_size) as [b|e] eqn:Eb;
    [|apply pack_L_raise in Eb; cbn [rbind]; split; [tauto|lia]].
  destruct (pack_L flags) as [c|e] eqn:Ec;
    [|apply pack_L_raise in Ec; cbn [rbind]; split; [tauto|lia]].
  cbn [rbind _data _polynomial _header].
  pose proof (pack_L_length _ _ Ea) as La.
  pose proof (pack_L_length _ _ Eb) as Lb.
  pose proof (pack_L_length _ _ Ec) as Lc.
  apply pack_L_inv in Ea, Eb, Ec.
  destruct Ea as (Ra & _ & Va), Eb as (Rb & _ & Vb), Ec as (Rc & _ & Vc).
  split; [repeat split; lia|]. split; [reflexivity|]. split; [reflexivity|].
  exists (a ++ b ++ c). split; [reflexivity|].
  exact (header_fields a b c _ _ _ La Lb Lc Va Vb Vc).
Qed.

(** What [main] has set up when its set-up succeeds. *)
Lemma main_creator_ok (args : Namespace) (data : bytes)
  (creator : TransferDataCreator) :
  main_creator args data = Ok creator ->
  data <> []
  /\ _data creator = data
  /\ match flash_offset args with
     | None => _header creator = None
     | Some _ => exists h, _header creator = Some h /\ length h = 12%nat
     end.
Proof.
  unfold main_creator. cbv zeta.
  destruct data as [|x data]; [discriminate|]. cbn [length Nat.eqb].
  destruct (flash_offset args) as [offset|].
  - intro E. apply add_header_inv in E. destruct E as (D & h & H1 & H2).
    split; [discriminate|]. split; [exact D|]. now exists h.
  - intros [= <-]. split; [discriminate|]. split; reflexivity.
Qed.

Lemma plan_contents_length (creator : TransferDataCreator) :
  length (plan_contents creator)
  = (match _header creator with Some _ => 1 | None => 0 end
     + block_count (length (_data creator)))%nat.
Proof.
  unfold plan_contents, payload_blocks.
  rewrite length_app, length_map, length_seq.
  now destruct (_header creator).
Qed.

(** Once its set-up has succeeded, [main] cannot fail in planning: the plan
    exists, with one frame per 1024 bytes of the file (rounded up) and one
    more when a flash offset was given, and [main] is the banner followed by
    the upload of that plan to the device named in the arguments.  When
    [main] returns normally it has written the whole plan and then 0x04. *)
Theorem main_uploads_plan {W : Type} (uart : SerialPort W)
  (args : Namespace) (data : bytes) (creator : TransferDataCreator) (w : W) :
  main_creator args data = Ok creator ->
  exists plan,
    get_transfer_chunks creator = Ok plan
    /\ length plan =
       (match flash_offset args with Some _ => 1 | None => 0 end
        + block_count (length data))%nat
    /\ outcome (main uart args data w)
       = outcome (upload_data uart
                    (mkFirmwareUploader plan (uart_device args)) w)
    /\ trace (main uart args data w)
       = EvPrint MsgWarning
           :: trace (upload_data uart
                       (mkFirmwareUploader plan (uart_device args)) w)
    /\ (outcome (main uart args data w) = Ok tt ->
        writes (trace (main uart args data w)) = plan ++ [EOT]).
Proof.
  intro E. destruct (main_creator_ok args data creator E) as (Hne & Hd & Hh).
  destruct (get_transfer_chunks_frames creator) as (plan & P & L & _).
  { intros h Eh. destruct (flash_offset args); [|congruence].
    destruct Hh as (h' & Eh' & L'). congruence. }
  exists plan. split; [exact P|]. split.
  { rewrite L, plan_contents_length, Hd.
    destruct (flash_offset args).
    - destruct Hh as (h & -> & _). reflexivity.
    - now rewrite Hh. }
  assert (R : main uart args data w =
              (outcome (upload_data uart
                          (mkFirmwareUploader plan (uart_device args)) w),
               final (upload_data uart
                        (mkFirmwareUploader plan (uart_device args)) w),
               EvPrint MsgWarning
                 :: trace (upload_data uart
                             (mkFirmwareUploader plan (uart_device args)) w))).
  { unfold main, lift, print, bind. rewrite E, P.
    now destruct (upload_data uart _ w) as [[r w'] t]. }
  rewrite R. cbn [outcome trace fst snd].
  split; [reflexivity|]. split; [reflexivity|].
  intro O. cbn [writes].
  destruct (upload_data_run uart
              (mkFirmwareUploader plan (uart_device args)) w)
    as (n & _ & _ & [[_ Hf]|[_ Hw]] & _); [contradiction|exact Hw].
Qed.

Lemma main_uploads_plan_witness :
  exists plan,
    get_transfer_chunks
      (TransferDataCreator_init [x41; x42; x43] default_polynomial) = Ok plan
    /\ length plan =
       (match flash_offset plain_args with Some _ => 1 | None => 0 end
        + block_count (length [x41; x42; x43]))%nat
    /\ outcome (main fake_port plain_args [x41; x42; x43] (receiver_acks 2))
       = outcome (upload_data fake_port
                    (mkFirmwareUploader plan (uart_device plain_args))
                    (receiver_acks 2))
    /\ trace (main fake_port plain_args [x41; x42; x43] (receiver_acks 2))
       = EvPrint MsgWarning
           :: trace (upload_data fake_port
                       (mkFirmwareUploader plan (uart_device plain_args))
                       (receiver_acks 2))
    /\ (outcome (main fake_port plain_args [x41; x42; x43] (receiver_acks 2))
        = Ok tt ->
        writes (trace (main fake_port plain_args [x41; x42; x43]
                         (receiver_acks 2)))
        = plan ++ [EOT]).
Proof.
  apply (main_uploads_plan fake_port plain_args [x41; x42; x43]
           (TransferDataCreator_init [x41; x42; x43] default_polynomial)
           (receiver_acks 2)).
  reflexivity.
Defined.

Lemma add_header_outcome_flags (self : TransferDataCreator)
  (offset size : Z) (no_verification : bool) (e : exception) :
  add_header self offset size
    (if no_verification then Z.lor 0x0 NO_VERIFICATION else 0x0) = Raise e ->
  e = StructError
  /\ (~ 0 <= offset <= 0xFFFFFFFF \/ 0xFFFFFFFF < size \/ size < 0).
Proof.
  unfold add_header, struct_pack_LLL.
  destruct (pack_L offset) as [a|e'] eqn:Ea.
  2:{ cbn [rbind]. intros [= ->]. apply pack_L_raise in Ea.
      split; [tauto|left; tauto]. }
  destruct (pack_L size) as [b|e'] eqn:Eb.
  2:{ cbn [rbind]. intros [= ->]. apply pack_L_raise in Eb.
      split; [tauto|right; lia]. }
  destruct no_verification; discriminate.
Qed.

(** When the set-up of [main] fails, [main] fails with the same exception
    after printing its banner only: no plan is made and the port is not
    opened.  That happens for an empty file ([OSError]), and for a flash
    offset outside 32 bits or a file of 4 GiB or more when a flash offset is
    given ([struct.error]). *)
Theorem main_stops_before_port {W : Type} (uart : SerialPort W)
  (args : Namespace) (data : bytes) (w : W) (e : exception) :
  main_creator args data = Raise e ->
  main uart args data w = (Raise e, w, [EvPrint MsgWarning])
  /\ ((e = EmptyFile /\ data = [])
      \/ (e = StructError /\ data <> []
          /\ exists offset,
               flash_offset args = Some offset
               /\ (~ 0 <= offset <= 0xFFFFFFFF
                   \/ 0xFFFFFFFF < Z.of_nat (length data)))).
Proof.
  intro E. split.
  - unfold main, lift, print, bind. now rewrite E.
  - revert E. unfold main_creator. cbv zeta.
    destruct data as [|x data]; cbn [length Nat.eqb].
    + intros [= <-]. left. split; reflexivity.
    + destruct (flash_offset args) as [offset|]; [|discriminate].
      intro E. right.
      pose proof (add_header_outcome_flags
                    (TransferDataCreator_init (x :: data) default_polynomial)
                    offset (Z.of_nat (S (length data)))
                    (no_verify args) e E) as O.
      destruct O as [-> O]. split; [reflexivity|]. split; [discriminate|].
      exists offset. split; [reflexivity|]. lia.
Qed.

Lemma main_stops_before_port_witness :
  main fake_port bad_offset_args [x41] receiver_ack_once
  = (Raise StructError, receiver_ack_once, [EvPrint MsgWarning])
  /\ ((StructError = EmptyFile /\ [x41] = [])
      \/ (StructError = StructError /\ [x41] <> []
          /\ exists offset,
               flash_offset bad_offset_args = Some offset
               /\ (~ 0 <= offset <= 0xFFFFFFFF
                   \/ 0xFFFFFFFF < Z.of_nat (length [x41])))).
Proof.
  apply (main_stops_before_port fake_port bad_offset_args [x41]
           receiver_ack_once StructError).
  reflexivity.
Defined.

(** ** The west runner *)

(** The runner cannot be created without a file: [do_create] raises
    [RuntimeError] exactly when no file was given, whatever the other
    arguments are. *)
Theorem runner_requires_file (ZEPHYR_BASE : string) (a : Runner.args) :
  (exists msg, Runner.do_create ZEPHYR_BASE a = Runner.RuntimeError msg)
  <-> Runner.file a = None.
Proof.
  unfold Runner.do_create, Runner.Xmodem1KSender_init.
  destruct (Runner.file a) as [f|], (Runner.dev_id a) as [d|]; split;
    try discriminate; try (intros [msg H]; discriminate);
    try (intros _; eexists; reflexivity).
Qed.

(** The command a created runner hands to [check_call]: interpreter,
    script, device and file, the device being "/dev/ttyACM0" (with a logged
    warning) when none was given; then, unless the header was switched off,
    "--flash-offset" with the offset printed by [str] and "--no-verify" when
    that was asked for.  With the header switched off nothing else is
    passed on, so that a given offset and "--no-verify" are dropped, and
    the plain-transfer warning is logged. *)
Theorem runner_command (ZEPHYR_BASE executable : string) (a : Runner.args)
  (f : string) :
  Runner.file a = Some f ->
  exists runner log,
    Runner.do_create ZEPHYR_BASE a = Runner.Created runner log
    /\ log = match Runner.dev_id a with
             | Some _ => []
             | None => [Runner.DefaultDevice "/dev/ttyACM0"]
             end
    /\ Runner.do_run executable runner =
       ([executable;
         Runner.path_join ZEPHYR_BASE
           ["scripts"; "support"; "xmodem1k_sender.py"]%string;
         "--uart-device"%string;
         match Runner.dev_id a with
         | Some d => d
         | None => "/dev/ttyACM0"%string
         end;
         "--file"%string; f]
          ++ (if Runner.no_header a then []
              else ["--flash-offset"%string;
                    Runner.str (Runner.flash_offset a)]
                     ++ (if Runner.no_verify a then ["--no-verify"%string]
                         else [])),
        if Runner.no_header a then [Runner.PlainTransfer] else []).
Proof.
  intro Hf. unfold Runner.do_create, Runner.Xmodem1KSender_init.
  rewrite Hf.
  destruct (Runner.dev_id a) as [d|]; eexists _, _;
    (split; [reflexivity|]); (split; [reflexivity|]);
    unfold Runner.do_run; cbn [Runner._flash_header Runner._script_path
                               Runner._dev_id Runner._file];
    destruct (Runner.no_header a); cbn [negb]; try reflexivity;
    destruct (Runner.no_verify a); reflexivity.
Qed.

Lemma runner_command_witness :
  exists runner log,
    Runner.do_create "/zephyr" runner_demo_args = Runner.Created runner log
    /\ log = match Runner.dev_id runner_demo_args with
             | Some _ => []
             | None => [Runner.DefaultDevice "/dev/ttyACM0"]
             end
    /\ Runner.do_run "python3" runner =
       (["python3"%string;
         Runner.path_join "/zephyr"
           ["scripts"; "support"; "xmodem1k_sender.py"]%string;
         "--uart-device"%string;
         match Runner.dev_id runner_demo_args with
         | Some d => d
         | None => "/dev/ttyACM0"%string
         end;
         "--file"%string; "zephyr.bin"%string]
          ++ (if Runner.no_header runner_demo_args then []
              else ["--flash-offset"%string;
                    Runner.str (Runner.flash_offset runner_demo_args)]
                     ++ (if Runner.no_verify runner_demo_args
                         then ["--no-verify"%string] else [])),
        if Runner.no_header runner_demo_args then [Runner.PlainTransfer]
        else []).
Proof.
  apply (runner_command "/zephyr" "python3" runner_demo_args "zephyr.bin").
  reflexivity.
Defined.

(** ** The polynomial *)

Lemma crc24_round_low_polynomial (p c : Z) :
  crc24_round (p mod 2 ^ 16) c = crc24_round p c.
Proof.
  rewrite !crc24_round_eq. destruct (Z.testbit c 23); [|reflexivity].
  apply Z.bits_inj'. intros m Hm.
  destruct (Z.lt_ge_cases m 24) as [L|L].
  - rewrite !Z.mod_pow2_bits_low, !Z.lxor_spec by lia. f_equal.
    destruct (Z.lt_ge_cases m 8).
    + now rewrite !Z.shiftl_spec_low by lia.
    + rewrite !Z.shiftl_spec by lia. apply Z.mod_pow2_bits_low. lia.
  - now rewrite !Z.mod_pow2_bits_high by lia.
Qed.

Lemma crc24_iter_low_polynomial (p : Z) (k : nat) (c : Z) :
  Nat.iter k (crc24_round (p mod 2 ^ 16)) c = Nat.iter k (crc24_round p) c.
Proof.
  induction k as [|k IH]; [reflexivity|].
  now rewrite !Nat.iter_succ, IH, crc24_round_low_polynomial.
Qed.

(** Only the low 16 bits of the polynomial enter the checksum: a creator
    made with the polynomial written with its leading term, 0x11021, computes
    the same checksums as one made with 0x1021. *)
Theorem calc_crc16_polynomial_low_bits (self self' : TransferDataCreator)
  (data : bytes) (initial : Z) :
  _polynomial self' = _polynomial self mod 2 ^ 16 ->
  calc_crc16 self' data initial = calc_crc16 self data initial.
Proof.
  intro Hp. unfold calc_crc16. revert initial.
  induction data as [|b data IH]; intro initial; [reflexivity|].
  rewrite !fold_left_cons, IH. f_equal.
  unfold _calc_crc16_single_byte.
  now rewrite Hp, crc24_iter_low_polynomial.
Qed.

Lemma calc_crc16_polynomial_low_bits_witness :
  calc_crc16 (TransferDataCreator_init [] 0x1021) [x31; x32; x33] 0
  = calc_crc16 (TransferDataCreator_init [] 0x11021) [x31; x32; x33] 0.
Proof.
  apply (calc_crc16_polynomial_low_bits
           (TransferDataCreator_init [] 0x11021)
           (TransferDataCreator_init [] 0x1021)).
  reflexivity.
Defined.
